(** * Vertex funding rates

    A shallow embedding of [vertex.py]: the product-mapping loader, the batch
    planner, the snapshot fetcher, the rate processor and the aggregator of
    [main], followed by the properties of these functions.

    Python integers are [Z]; list lengths, indices and batch sizes are [nat];
    Python floats are IEEE 754 binary64 values, taken from the executable
    specification [SpecFloat] of the Standard Library (53 bits of precision,
    round to nearest even).  Dictionaries keep their insertion order, as
    Python's do, and are association lists without repeated keys.  The global
    [PRODUCT_MAPPING], the console, the requests posted to the archive and
    the report file form an explicit state that a small state-and-exception
    monad threads through the calls. *)

From Stdlib Require Import ZArith List String Ascii Bool Lia.
From Stdlib Require Import Permutation Sorted DecimalString SpecFloat.
Import ListNotations.
Local Open Scope string_scope.
Local Open Scope list_scope.

(* ================================================================== *)
(** ** Binary64 arithmetic *)

Module F64.

Definition float : Type := spec_float.

Definition prec : Z := 53.
Definition emax : Z := 1024.

Definition add : float -> float -> float := SFadd prec emax.
Definition mul : float -> float -> float := SFmul prec emax.
Definition div : float -> float -> float := SFdiv prec emax.

(** Conversion of a Python [int] to [float], correctly rounded. *)
Definition of_Z (z : Z) : float := binary_normalize prec emax z 0 false.

Definition zero : float := S754_zero false.
Definition nan : float := S754_nan.

Definition ltb : float -> float -> bool := SFltb.
Definition leb : float -> float -> bool := SFleb.
Definition eqb : float -> float -> bool := SFeqb.

Definition is_nan (x : float) : bool :=
  match x with
  | S754_nan => true
  | _ => false
  end.

End F64.

(* ================================================================== *)
(** ** Python values, exceptions, dictionaries, ranges and slices *)

Module Py.

(** The hashable scalars the program handles: product ids are integers
    (or the raw key string when it is not numeric), tickers are strings. *)
Inductive pyval : Type :=
| PInt (z : Z)
| PStr (s : string).

Definition pyval_eqb (a b : pyval) : bool :=
  match a, b with
  | PInt x, PInt y => Z.eqb x y
  | PStr x, PStr y => String.eqb x y
  | _, _ => false
  end.

(** [str(v)], as an f-string formats a value. *)
Definition str (v : pyval) : string :=
  match v with
  | PInt z => NilZero.string_of_int (Z.to_int z)
  | PStr s => s
  end.

Inductive exn : Type :=
| KeyError (key : string)
| ValueError
| TypeError
| AttributeError
| OverflowError
| OSError
| RequestException (msg : string).

Inductive result (A : Type) : Type :=
| Ok (a : A)
| Raise (e : exn).
Arguments Ok {A} a.
Arguments Raise {A} e.

Definition is_RequestException (e : exn) : bool :=
  match e with
  | RequestException _ => true
  | _ => false
  end.

Definition is_ValueError (e : exn) : bool :=
  match e with
  | ValueError => true
  | _ => false
  end.

(** Insertion-ordered dictionaries.  [set] overwrites the value of a key
    that is present and keeps its position; a new key goes to the end. *)
Section Dict.
Context {K V : Type}.
Variable keq : K -> K -> bool.

Fixpoint get (k : K) (d : list (K * V)) : option V :=
  match d with
  | [] => None
  | (k', v) :: t => if keq k k' then Some v else get k t
  end.

Fixpoint set (k : K) (v : V) (d : list (K * V)) : list (K * V) :=
  match d with
  | [] => [(k, v)]
  | (k', v') :: t =>
      if keq k k' then (k', v) :: t else (k', v') :: set k v t
  end.

Definition mem (k : K) (d : list (K * V)) : bool :=
  match get k d with
  | Some _ => true
  | None => false
  end.

Definition get_default (k : K) (dflt : V) (d : list (K * V)) : V :=
  match get k d with
  | Some v => v
  | None => dflt
  end.

Definition keys (d : list (K * V)) : list K := map fst d.

(** [d[k]]: a missing key raises [KeyError]. *)
Definition subscript (show : K -> string) (d : list (K * V)) (k : K)
  : result V :=
  match get k d with
  | Some v => Ok v
  | None => Raise (KeyError (show k))
  end.
End Dict.

(** [set(a) == set(b)] on two lists of keys. *)
Definition subset (a b : list pyval) : bool :=
  forallb (fun k => existsb (pyval_eqb k) b) a.

Definition set_eqb (a b : list pyval) : bool := subset a b && subset b a.

(** [range(0, stop, step)] for a step that is not negative; a zero step
    raises [ValueError].  The loop counter runs while it is below [stop];
    [stop] iterations are enough for any positive step. *)
Fixpoint range_from (fuel i stop step : nat) : list nat :=
  match fuel with
  | O => []
  | S fuel' =>
      if Nat.ltb i stop then i :: range_from fuel' (i + step) stop step
      else []
  end.

Definition range (stop step : nat) : result (list nat) :=
  match step with
  | O => Raise ValueError
  | S _ => Ok (range_from stop 0 stop step)
  end.

(** [lst[i:j]] for [0 <= i <= j]; out-of-range bounds are clipped. *)
Definition slice {A : Type} (lst : list A) (i j : nat) : list A :=
  firstn (j - i) (skipn i lst).

(** Model of the built-in [sorted(items, key=..., reverse=True)]: a stable
    sort that only asks whether one key is below another.  An item is put
    after the items whose key is above its own and before all others, so
    items that compare equal keep their order.  On keys without NaN, which
    [<] orders totally, this is the list that every stable sort returns
    (lemma [sorted_reverse_unique]).  With a NaN among the keys the result
    of the built-in depends on the steps of its algorithm, which this
    insertion sort does not follow; nothing is stated about such keys
    beyond one three-item list (100.0, NaN, 200.0), on which the two
    agree. *)
Section Sorted.
Context {A : Type}.
Variable key : A -> F64.float.

Fixpoint insert_desc (x : A) (l : list A) : list A :=
  match l with
  | [] => [x]
  | y :: t =>
      if F64.ltb (key x) (key y) then y :: insert_desc x t
      else x :: y :: t
  end.

Definition sorted_reverse (l : list A) : list A :=
  fold_right insert_desc [] l.
End Sorted.

End Py.

Import Py.

(* ================================================================== *)
(** ** Data of the program *)

(** One record of the assets response: a JSON object. *)
Definition jobject : Type := list (string * pyval).

(** One market snapshot of the shape that the archive documents: an
    integer timestamp and string rates under string keys; [.get] is used on
    both fields, so each may be absent.  What the Rate Processor does on
    JSON of any other shape is modelled further down
    ([process_funding_rates_json]). *)
Record snapshot : Type := {
  timestamp : option Z;
  funding_rates : option (list (string * string))
}.

Record entry : Type := {
  e_timestamp : option Z;
  funding_rate : F64.float
}.

Record interval : Type := {
  count : Z;
  granularity : Z;
  max_time : Z
}.

Record payload : Type := {
  market_interval : interval;
  product_ids : list pyval
}.

(** Body of the archive response; [data.get("snapshots", [])]. *)
Record archive_body : Type := {
  snapshots_field : option (list snapshot)
}.

Inductive logline : Type :=
| LogMappingUpdated
| LogNoNewMapping
| LogAssetsError (e : exn)
| LogUsingIds (ids : list pyval)
| LogMaxBatch (n : nat)
| LogFetching (batch : list pyval)
| LogArchiveError (batch : list pyval) (e : exn)
| LogNoSnapshots
| LogDebugFirst (s : snapshot)
| LogRate (ticker : pyval) (avg : F64.float).

Inductive report_line : Type :=
| Header
| Separator
| Row (ticker : pyval) (avg : F64.float).

(** The mutable world of a run: the global mapping, what was printed, the
    requests posted to the archive so far, and the lines handed to
    [vertexrates.txt] since it was last opened for writing ([None] while the
    run has not opened it). *)
Record state : Type := {
  PRODUCT_MAPPING : list (pyval * pyval);
  stdout : list logline;
  archive_requests : list payload;
  vertexrates_txt : option (list report_line)
}.

(** What a run reads from outside: the assets response, the archive
    response to the i-th batch request, the clock at the i-th request,
    whether the report file can be opened, whether the k-th [f.write] on it
    goes through and whether it can be closed. *)
Record world : Type := {
  assets : result (list jobject);
  archive : nat -> payload -> result archive_body;
  clock : nat -> Z;
  open_report : result unit;
  write_line : nat -> result unit;
  close_report : result unit
}.

(* ================================================================== *)
(** ** State and exception monad *)

Definition M (A : Type) : Type := state -> result A * state.

Definition ret {A : Type} (a : A) : M A := fun st => (Ok a, st).

Definition bind {A B : Type} (m : M A) (f : A -> M B) : M B :=
  fun st =>
    match m st with
    | (Ok a, st') => f a st'
    | (Raise e, st') => (Raise e, st')
    end.

Notation "x <- m ;; k" := (bind m (fun x => k))
  (at level 61, m at next level, right associativity).
Notation "m ;;; k" := (bind m (fun _ => k))
  (at level 61, right associativity).

Definition lift {A : Type} (r : result A) : M A := fun st => (r, st).

Definition print (l : logline) : M unit :=
  fun st =>
    (Ok tt, {| PRODUCT_MAPPING := PRODUCT_MAPPING st;
               stdout := stdout st ++ [l];
               archive_requests := archive_requests st;
               vertexrates_txt := vertexrates_txt st |}).

Definition read_mapping : M (list (pyval * pyval)) :=
  fun st => (Ok (PRODUCT_MAPPING st), st).

Definition assign_mapping (m : list (pyval * pyval)) : M unit :=
  fun st =>
    (Ok tt, {| PRODUCT_MAPPING := m;
               stdout := stdout st;
               archive_requests := archive_requests st;
               vertexrates_txt := vertexrates_txt st |}).

Definition write_file (lines : list report_line) : M unit :=
  fun st =>
    (Ok tt, {| PRODUCT_MAPPING := PRODUCT_MAPPING st;
               stdout := stdout st;
               archive_requests := archive_requests st;
               vertexrates_txt := Some lines |}).

(** One more line handed to the report file. *)
Definition append_line (l : report_line) : M unit :=
  fun st =>
    write_file (match vertexrates_txt st with
                | Some ls => ls ++ [l]
                | None => [l]
                end) st.

(** A request posted to the archive. *)
Definition record_request (p : payload) : M unit :=
  fun st =>
    (Ok tt, {| PRODUCT_MAPPING := PRODUCT_MAPPING st;
               stdout := stdout st;
               archive_requests := archive_requests st ++ [p];
               vertexrates_txt := vertexrates_txt st |}).

(** [try: body except <catches> as e: handler e].  What the body did to the
    state before it raised stays done. *)
Definition try_except {A : Type} (body : M A) (catches : exn -> bool)
    (handler : exn -> M A) : M A :=
  fun st =>
    match body st with
    | (Raise e, st') => if catches e then handler e st' else (Raise e, st')
    | r => r
    end.

(** The same on pure computations. *)
Definition try_pure {A : Type} (body : result A) (catches : exn -> bool)
    (handler : A) : result A :=
  match body with
  | Raise e => if catches e then Ok handler else Raise e
  | r => r
  end.

(** [with <resource>: body]: the resource is closed when the body is left,
    whether it returned or raised; an error of the close replaces the
    outcome of the body. *)
Definition with_close (body close : M unit) : M unit :=
  fun st =>
    match body st with
    | (Ok _, st') => close st'
    | (Raise e, st') =>
        match close st' with
        | (Ok _, st'') => (Raise e, st'')
        | (Raise e', st'') => (Raise e', st'')
        end
    end.

Definition rbind {A B : Type} (r : result A) (f : A -> result B) : result B :=
  match r with
  | Ok a => f a
  | Raise e => Raise e
  end.

(* ================================================================== *)
(** ** Mapping Loader: [update_product_mapping] *)

(** [{item["product_id"]: item["ticker_id"] for item in symbols}]: the key
    is evaluated before the value, and the first missing field stops the
    construction. *)
Fixpoint dict_comprehension (symbols : list jobject)
    (acc : list (pyval * pyval)) : result (list (pyval * pyval)) :=
  match symbols with
  | [] => Ok acc
  | item :: rest =>
      rbind (subscript String.eqb id item "product_id") (fun k =>
      rbind (subscript String.eqb id item "ticker_id") (fun v =>
      dict_comprehension rest (set pyval_eqb k v acc)))
  end.

Definition update_product_mapping (reply : result (list jobject)) : M unit :=
  try_except
    (symbols <- lift reply ;;
     new_mapping <- lift (dict_comprehension symbols []) ;;
     old_mapping <- read_mapping ;;
     if negb (set_eqb (keys new_mapping) (keys old_mapping))
     then print LogMappingUpdated ;;; assign_mapping new_mapping
     else print LogNoNewMapping)
    is_RequestException
    (fun e => print (LogAssetsError e)).

(* ================================================================== *)
(** ** Batch Planner: [chunk_list] *)

Definition chunk_list {A : Type} (lst : list A) (chunk_size : nat)
  : result (list (list A)) :=
  rbind (range (List.length lst) chunk_size) (fun starts =>
  Ok (map (fun i => slice lst i (i + chunk_size)) starts)).

(* ================================================================== *)
(** ** Snapshot Fetcher: [get_historical_funding_rates] *)

Definition rounded_time (current_time : Z) : Z :=
  (current_time - (current_time mod 3600) + 5)%Z.

Definition archive_payload (ids : list pyval) (cnt gran current_time : Z)
  : payload :=
  {| market_interval :=
       {| count := cnt;
          granularity := gran;
          max_time := rounded_time current_time |};
     product_ids := ids |}.

Definition get_historical_funding_rates
    (post : payload -> result archive_body) (current_time : Z)
    (ids : list pyval) (cnt gran : Z) : M (list snapshot) :=
  try_except
    (record_request (archive_payload ids cnt gran current_time) ;;;
     data <- lift (post (archive_payload ids cnt gran current_time)) ;;
     ret (match snapshots_field data with
          | Some l => l
          | None => []
          end))
    is_RequestException
    (fun e => print (LogArchiveError ids e) ;;; ret []).

(* ================================================================== *)
(** ** Built-ins on the inputs of the examples

    [int], [float] and [sum] are Python built-ins; the program is modelled
    over any reading of them (see the section below).  This module gives one
    on plain decimal literals and on ["nan"], with [sum] adding from the
    left, to run the model on concrete inputs. *)

Module Ref.

Definition digit (c : ascii) : option Z :=
  let n := N_of_ascii c in
  if (N.leb 48 n && N.leb n 57)%bool then Some (Z.of_N n - 48)%Z else None.

Fixpoint digits (s : string) (acc : Z) : option Z :=
  match s with
  | EmptyString => Some acc
  | String c s' =>
      match digit c with
      | Some d => digits s' (10 * acc + d)%Z
      | None => None
      end
  end.

Definition int (s : string) : option Z :=
  match s with
  | EmptyString => None
  | String "-"%char EmptyString => None
  | String "-"%char s' => option_map Z.opp (digits s' 0%Z)
  | _ => digits s 0%Z
  end.

Definition float (s : string) : option F64.float :=
  if String.eqb s "nan" then Some F64.nan
  else option_map F64.of_Z (int s).

Definition sum (l : list F64.float) : F64.float :=
  fold_left F64.add l F64.zero.

End Ref.

(* ================================================================== *)
(** ** Rate Processor, Aggregator and [main] *)

Definition funding_data : Type := list (pyval * list entry).

(** A loop whose body may raise. *)
Fixpoint rfold {A B : Type} (f : B -> A -> result B) (l : list A) (b : B)
  : result B :=
  match l with
  | [] => Ok b
  | x :: t => rbind (f b x) (rfold f t)
  end.

(** Hourly funding rate in percent: [((raw_value / 1e18) / 24) * 100]. *)
Definition hourly_percentage (raw_value : F64.float) : F64.float :=
  F64.mul
    (F64.div (F64.div raw_value (F64.of_Z (10 ^ 18))) (F64.of_Z 24))
    (F64.of_Z 100).

Definition new_entry (ts : option Z) (raw_value : F64.float) : entry :=
  {| e_timestamp := ts; funding_rate := hourly_percentage raw_value |}.

Definition unknown_label (prod_id : pyval) : pyval :=
  PStr ("Unknown(" ++ str prod_id ++ ")").

Section Vertex.

(** [int(s)] and [float(s)] on a string: [None] stands for the
    [ValueError] they raise on a string they cannot read (no other
    exception leaves them on a [str] argument); [sum] on floats. *)
Variable py_int : string -> option Z.
Variable py_float : string -> option F64.float.
Variable py_sum : list F64.float -> F64.float.

Definition int_ (s : string) : result Z :=
  match py_int s with
  | Some z => Ok z
  | None => Raise ValueError
  end.

Definition float_ (s : string) : result F64.float :=
  match py_float s with
  | Some x => Ok x
  | None => Raise ValueError
  end.

(** Body of the inner loop of [process_funding_rates]. *)
Definition process_pair (mapping : list (pyval * pyval)) (ts : option Z)
    (fd : funding_data) (kv : string * string) : result funding_data :=
  let prod_id_str := fst kv in
  let rate_str := snd kv in
  rbind (try_pure (rbind (int_ prod_id_str) (fun z => Ok (PInt z)))
                  is_ValueError (PStr prod_id_str)) (fun prod_id =>
  let ticker := get_default pyval_eqb prod_id (unknown_label prod_id) mapping in
  rbind (try_pure (float_ rate_str) is_ValueError F64.zero) (fun raw_value =>
  let fd1 := if negb (mem pyval_eqb ticker fd)
             then set pyval_eqb ticker [] fd else fd in
  rbind (subscript pyval_eqb str fd1 ticker) (fun entries =>
  Ok (set pyval_eqb ticker (entries ++ [new_entry ts raw_value]) fd1)))).

Definition process_snapshot (mapping : list (pyval * pyval))
    (fd : funding_data) (s : snapshot) : result funding_data :=
  rfold (process_pair mapping (timestamp s))
        (match funding_rates s with Some d => d | None => [] end) fd.

(** The global mapping is not assigned while the snapshots are processed;
    it is read once here. *)
Definition process_funding_rates (snapshots : list snapshot)
  : M funding_data :=
  mapping <- read_mapping ;;
  lift (rfold (process_snapshot mapping) snapshots []).

(** Step 5 of [main]: the loop that fills [average_rates]. *)
Definition average_rate (entries : list entry) : F64.float :=
  F64.div (py_sum (map funding_rate entries)) (F64.of_Z 3).

Definition average_rates (fd : funding_data) : list (pyval * F64.float) :=
  fold_left (fun acc te => set pyval_eqb (fst te) (average_rate (snd te)) acc)
            fd [].

Definition sorted_rates (fd : funding_data) : list (pyval * F64.float) :=
  sorted_reverse snd (average_rates fd).

(** The calls [f.write(line)]: the [k]-th call may fail; a line that went
    through is in the file. *)
Fixpoint write_lines (w : world) (k : nat) (lines : list report_line)
  : M unit :=
  match lines with
  | [] => ret tt
  | l :: rest =>
      lift (write_line w k) ;;;
      append_line l ;;;
      write_lines w (S k) rest
  end.

(** Step 6 of [main]: opening for writing empties the file; then the header,
    the separator and one row for each rate are written, and the file is
    closed on the way out of the [with] block. *)
Definition write_report (w : world)
    (rates : list (pyval * F64.float)) : M unit :=
  lift (open_report w) ;;;
  write_file [] ;;;
  with_close
    (write_lines w 0
       (Header :: Separator :: map (fun p => Row (fst p) (snd p)) rates))
    (lift (close_report w)).

Fixpoint print_rates (rates : list (pyval * F64.float)) : M unit :=
  match rates with
  | [] => ret tt
  | p :: t => print (LogRate (fst p) (snd p)) ;;; print_rates t
  end.

(** Step 3 of [main]: one request per batch; [i] counts the requests.
    The pause between two requests changes nothing in the state. *)
Fixpoint fetch_batches (w : world) (batches : list (list pyval)) (i : nat)
    (all_snapshots : list snapshot) : M (list snapshot) :=
  match batches with
  | [] => ret all_snapshots
  | batch :: rest =>
      print (LogFetching batch) ;;;
      snapshots <- get_historical_funding_rates
                     (archive w i) (clock w i) batch 72 3600 ;;
      fetch_batches w rest (S i)
        (match snapshots with
         | [] => all_snapshots
         | _ :: _ => all_snapshots ++ snapshots
         end)
  end.

Definition main (w : world) : M unit :=
  update_product_mapping (assets w) ;;;
  mapping <- read_mapping ;;
  let ids := keys mapping in
  print (LogUsingIds ids) ;;;
  let max_batch_size := Nat.div 2000 72 in
  print (LogMaxBatch max_batch_size) ;;;
  batches <- lift (chunk_list ids max_batch_size) ;;
  all_snapshots <- fetch_batches w batches 0 [] ;;
  match all_snapshots with
  | [] => print LogNoSnapshots
  | first :: _ =>
      print (LogDebugFirst first) ;;;
      fd <- process_funding_rates all_snapshots ;;
      let rates := sorted_rates fd in
      write_report w rates ;;;
      print_rates rates
  end.

End Vertex.

(** Names for what the inner loop of the Rate Processor computes, used to
    state its properties. *)
Section Readings.

Variable py_int : string -> option Z.
Variable py_float : string -> option F64.float.

(** The product id read from a key of [funding_rates]. *)
Definition prod_id_of (prod_id_str : string) : pyval :=
  match py_int prod_id_str with
  | Some z => PInt z
  | None => PStr prod_id_str
  end.

Definition ticker_of (mapping : list (pyval * pyval)) (prod_id_str : string)
  : pyval :=
  get_default pyval_eqb (prod_id_of prod_id_str)
              (unknown_label (prod_id_of prod_id_str)) mapping.

Definition raw_value_of (rate_str : string) : F64.float :=
  match py_float rate_str with
  | Some x => x
  | None => F64.zero
  end.

End Readings.

Definition items_of (s : snapshot) : list (string * string) :=
  match funding_rates s with
  | Some d => d
  | None => []
  end.

(** [append_entry t e fd]: entry [e] at the end of the list of ticker [t]. *)
Definition append_entry (t : pyval) (e : entry) (fd : funding_data)
  : funding_data :=
  set pyval_eqb t
      (match get pyval_eqb t fd with Some l => l | None => [] end ++ [e]) fd.

(** Entry [e] is in the list that [fd] holds for ticker [t]. *)
Definition recorded (fd : funding_data) (t : pyval) (e : entry) : Prop :=
  exists l, get pyval_eqb t fd = Some l /\ In e l.

Definition total_entries (fd : funding_data) : nat :=
  list_sum (map (fun te => List.length (snd te)) fd).

Definition total_pairs (snapshots : list snapshot) : nat :=
  list_sum (map (fun s => List.length (items_of s)) snapshots).

(** The current time rounded down to a multiple of [g], in the words of the
    specification. *)
Definition round_down_to_multiple (t g : Z) : Z := (g * (t / g))%Z.

(** No earlier row has a rate below that of a later row. *)
Definition descending (rates : list (pyval * F64.float)) : Prop :=
  StronglySorted (fun a b => F64.ltb (snd a) (snd b) = false) rates.

Definition same_rate (x : F64.float) (p : pyval * F64.float) : bool :=
  F64.eqb (snd p) x.

(** The tickers of a sequence, each kept at its first appearance. *)
Definition note_ticker (seen : list pyval) (t : pyval) : list pyval :=
  if existsb (pyval_eqb t) seen then seen else seen ++ [t].

Definition first_appearances (tickers : list pyval) : list pyval :=
  fold_left note_ticker tickers [].

(** The tickers of the pairs of the snapshots, in the order in which the
    loops of the Rate Processor meet them. *)
Definition tickers_met (py_int : string -> option Z)
    (mapping : list (pyval * pyval)) (snapshots : list snapshot)
  : list pyval :=
  flat_map (fun s => map (fun kv => ticker_of py_int mapping (fst kv))
                         (items_of s)) snapshots.

(** The list that [fd] holds for ticker [t]; empty when [t] is no key. *)
Definition entries_at (fd : funding_data) (t : pyval) : list entry :=
  match get pyval_eqb t fd with
  | Some l => l
  | None => []
  end.

(** The entries of the pairs that resolve to ticker [t], in the order in
    which the loops of the Rate Processor meet the pairs. *)
Definition entries_of_ticker (py_int : string -> option Z)
    (py_float : string -> option F64.float)
    (mapping : list (pyval * pyval)) (snapshots : list snapshot) (t : pyval)
  : list entry :=
  flat_map
    (fun s =>
       flat_map
         (fun kv =>
            if pyval_eqb t (ticker_of py_int mapping (fst kv))
            then [new_entry (timestamp s) (raw_value_of py_float (snd kv))]
            else [])
         (items_of s))
    snapshots.

(** The answers of the archive to the requests of the batch loop, the
    first request being the [i]-th of the run. *)
Fixpoint batch_replies (w : world) (batches : list (list pyval)) (i : nat)
  : list (result archive_body) :=
  match batches with
  | [] => []
  | batch :: rest =>
      archive w i (archive_payload batch 72 3600 (clock w i))
      :: batch_replies w rest (S i)
  end.

(** The requests of the batch loop. *)
Fixpoint batch_payloads (w : world) (batches : list (list pyval)) (i : nat)
  : list payload :=
  match batches with
  | [] => []
  | batch :: rest =>
      archive_payload batch 72 3600 (clock w i) :: batch_payloads w rest (S i)
  end.

(** An answer that the fetcher turns into a list: a body, or a request
    error. *)
Definition answered (reply : result archive_body) : bool :=
  match reply with
  | Ok _ => true
  | Raise e => is_RequestException e
  end.

(** The snapshots that an answer contributes. *)
Definition snapshots_of (reply : result archive_body) : list snapshot :=
  match reply with
  | Ok data =>
      match snapshots_field data with
      | Some l => l
      | None => []
      end
  | Raise _ => []
  end.

(** The state after one more line on the console. *)
Definition logged (l : logline) (st : state) : state :=
  {| PRODUCT_MAPPING := PRODUCT_MAPPING st;
     stdout := stdout st ++ [l];
     archive_requests := archive_requests st;
     vertexrates_txt := vertexrates_txt st |}.

Definition row_of (p : pyval * F64.float) : report_line := Row (fst p) (snd p).

Definition rate_line (p : pyval * F64.float) : logline :=
  LogRate (fst p) (snd p).

(* ------------------------------------------------------------------ *)
(** ** The Rate Processor on unvalidated JSON

    [snapshot] above is the shape that the archive documents.  The code
    itself checks nothing: it calls [.get], [.items], [int] and [float] on
    whatever the decoded response holds.  The definitions below follow it on
    arbitrary JSON values; on snapshots of the documented shape they agree
    with the typed ones (lemma [process_funding_rates_json_typed]). *)

#[warnings="-register-all"] Inductive json : Type :=
| JNull
| JBool (b : bool)
| JInt (z : Z)
| JFloat (x : F64.float)
| JStr (s : string)
| JList (items : list json)
| JObj (fields : list (string * json)).

Record jentry : Type := {
  j_timestamp : json;
  j_funding_rate : F64.float
}.

Definition jfunding_data : Type := list (pyval * list jentry).

(** [v.get(key, dflt)]: only an object has the method. *)
Definition jget (key : string) (dflt : json) (v : json) : result json :=
  match v with
  | JObj fields => Ok (get_default String.eqb key dflt fields)
  | _ => Raise AttributeError
  end.

(** [v.items()]. *)
Definition jitems (v : json) : result (list (string * json)) :=
  match v with
  | JObj fields => Ok fields
  | _ => Raise AttributeError
  end.

Definition new_jentry (ts : json) (raw_value : F64.float) : jentry :=
  {| j_timestamp := ts; j_funding_rate := hourly_percentage raw_value |}.

Section VertexJson.

Variable py_int : string -> option Z.
Variable py_float : string -> option F64.float.

(** [float(v)]: a string is parsed, a number converted (an integer beyond
    the range of floats raises [OverflowError]), a boolean is 1.0 or 0.0;
    [None], a list or an object raise [TypeError]. *)
Definition float_json (v : json) : result F64.float :=
  match v with
  | JStr s => float_ py_float s
  | JFloat x => Ok x
  | JInt z =>
      match F64.of_Z z with
      | S754_infinity _ => Raise OverflowError
      | x => Ok x
      end
  | JBool b => Ok (F64.of_Z (if b then 1 else 0))
  | JNull | JList _ | JObj _ => Raise TypeError
  end.

Definition process_pair_json (mapping : list (pyval * pyval)) (ts : json)
    (fd : jfunding_data) (kv : string * json) : result jfunding_data :=
  let prod_id_str := fst kv in
  let rate_str := snd kv in
  rbind (try_pure (rbind (int_ py_int prod_id_str) (fun z => Ok (PInt z)))
                  is_ValueError (PStr prod_id_str)) (fun prod_id =>
  let ticker := get_default pyval_eqb prod_id (unknown_label prod_id) mapping in
  rbind (try_pure (float_json rate_str) is_ValueError F64.zero) (fun raw_value =>
  let fd1 := if negb (mem pyval_eqb ticker fd)
             then set pyval_eqb ticker [] fd else fd in
  rbind (subscript pyval_eqb str fd1 ticker) (fun entries =>
  Ok (set pyval_eqb ticker (entries ++ [new_jentry ts raw_value]) fd1)))).

Definition process_snapshot_json (mapping : list (pyval * pyval))
    (fd : jfunding_data) (s : json) : result jfunding_data :=
  rbind (jget "timestamp" JNull s) (fun ts =>
  rbind (jget "funding_rates" (JObj []) s) (fun rates =>
  rbind (jitems rates) (fun pairs =>
  rfold (process_pair_json mapping ts) pairs fd))).

Definition process_funding_rates_json (snapshots : list json)
  : M jfunding_data :=
  mapping <- read_mapping ;;
  lift (rfold (process_snapshot_json mapping) snapshots []).

End VertexJson.

(** A snapshot of the documented shape as the JSON value it was decoded
    from, and the same for entries and funding data. *)
Definition snapshot_json (s : snapshot) : json :=
  JObj (match timestamp s with
        | Some z => [("timestamp", JInt z)]
        | None => []
        end ++
        match funding_rates s with
        | Some d =>
            [("funding_rates", JObj (map (fun kv => (fst kv, JStr (snd kv))) d))]
        | None => []
        end).

Definition entry_json (e : entry) : jentry :=
  {| j_timestamp := match e_timestamp e with
                    | Some z => JInt z
                    | None => JNull
                    end;
     j_funding_rate := funding_rate e |}.

Definition funding_data_json (fd : funding_data) : jfunding_data :=
  map (fun te => (fst te, map entry_json (snd te))) fd.






(** The product ids that the records of an assets response carry, in the
    order of the records. *)
Definition product_ids_of (symbols : list jobject) : list pyval :=
  flat_map (fun item =>
              match get String.eqb "product_id" item with
              | Some k => [k]
              | None => []
              end) symbols.

(** The ticker of the last record of the response that carries the product
    id [k]. *)
Fixpoint last_ticker (symbols : list jobject) (k : pyval) : option pyval :=
  match symbols with
  | [] => None
  | item :: rest =>
      match last_ticker rest k with
      | Some v => Some v
      | None =>
          match get String.eqb "product_id" item with
          | Some k' =>
              if pyval_eqb k k' then get String.eqb "ticker_id" item else None
          | None => None
          end
      end
  end.

(** A record that carries both fields the loader reads. *)
Definition complete_record (item : jobject) : Prop :=
  get String.eqb "product_id" item <> None
  /\ get String.eqb "ticker_id" item <> None.

Definition empty_state : state :=
  {| PRODUCT_MAPPING := []; stdout := []; archive_requests := [];
     vertexrates_txt := None |}.

(* ================================================================== *)
(** * Properties *)

(** ** Python values and dictionaries *)

Lemma pyval_eqb_eq (a b : pyval) : pyval_eqb a b = true <-> a = b.
Proof.
  destruct a as [x|x], b as [y|y]; simpl; split; intros H;
    try discriminate; try (inversion H; subst).
  - apply Z.eqb_eq in H. now subst.
  - apply Z.eqb_refl.
  - apply String.eqb_eq in H. now subst.
  - apply String.eqb_refl.
Qed.

Lemma pyval_eqb_refl (a : pyval) : pyval_eqb a a = true.
Proof. now apply pyval_eqb_eq. Qed.

Lemma pyval_eqb_neq (a b : pyval) : pyval_eqb a b = false <-> a <> b.
Proof.
  split; intros H.
  - intros E. apply pyval_eqb_eq in E. congruence.
  - destruct (pyval_eqb a b) eqn:E; [|reflexivity].
    apply pyval_eqb_eq in E. contradiction.
Qed.

Section DictFacts.
Context {V : Type}.
Implicit Types (d : list (pyval * V)) (k : pyval) (v : V).

Lemma get_set_same k v d : get pyval_eqb k (set pyval_eqb k v d) = Some v.
Proof.
  induction d as [|[k' v'] t IH]; simpl.
  - now rewrite pyval_eqb_refl.
  - destruct (pyval_eqb k k') eqn:E; simpl; rewrite E; auto.
Qed.

Lemma get_set_other k k' v d :
  k' <> k -> get pyval_eqb k' (set pyval_eqb k v d) = get pyval_eqb k' d.
Proof.
  intros Hne. induction d as [|[k0 v0] t IH]; simpl.
  - apply pyval_eqb_neq in Hne. now rewrite Hne.
  - destruct (pyval_eqb k k0) eqn:E; simpl.
    + apply pyval_eqb_eq in E. subst k0.
      apply pyval_eqb_neq in Hne. now rewrite Hne.
    + now rewrite IH.
Qed.

Lemma get_none_not_in k d : get pyval_eqb k d = None <-> ~ In k (keys d).
Proof.
  induction d as [|[k' v'] t IH]; simpl.
  - tauto.
  - destruct (pyval_eqb k k') eqn:E.
    + apply pyval_eqb_eq in E. subst. split; [discriminate | tauto].
    + apply pyval_eqb_neq in E. rewrite IH. split; intros H.
      * intros [H1|H1]; [congruence | tauto].
      * tauto.
Qed.

Lemma keys_set k v d :
  keys (set pyval_eqb k v d)
  = if mem pyval_eqb k d then keys d else keys d ++ [k].
Proof.
  unfold mem. induction d as [|[k' v'] t IH]; simpl.
  - reflexivity.
  - destruct (pyval_eqb k k') eqn:E; simpl.
    + reflexivity.
    + rewrite IH. now destruct (get pyval_eqb k t).
Qed.

Lemma NoDup_keys_set k v d :
  NoDup (keys d) -> NoDup (keys (set pyval_eqb k v d)).
Proof.
  intros H. rewrite keys_set. unfold mem.
  destruct (get pyval_eqb k d) eqn:E; [assumption|].
  apply get_none_not_in in E.
  apply NoDup_rev in H. rewrite <- (rev_involutive (keys d ++ [k])).
  apply NoDup_rev. rewrite rev_app_distr. simpl. constructor; [|assumption].
  now rewrite <- in_rev.
Qed.

Lemma get_in k v d : get pyval_eqb k d = Some v -> In (k, v) d.
Proof.
  induction d as [|[k' v'] t IH]; simpl; [discriminate|].
  destruct (pyval_eqb k k') eqn:E.
  - apply pyval_eqb_eq in E. intros [= ->]. subst. now left.
  - auto.
Qed.

Lemma in_get k v d : NoDup (keys d) -> In (k, v) d -> get pyval_eqb k d = Some v.
Proof.
  induction d as [|[k' v'] t IH]; simpl; [tauto|].
  intros Hnd [H|H]; inversion Hnd; subst.
  - inversion H; subst. now rewrite pyval_eqb_refl.
  - destruct (pyval_eqb k k') eqn:E; [|auto].
    apply pyval_eqb_eq in E. subst k'.
    exfalso. apply H2. change k with (fst (k, v)). now apply in_map.
Qed.

End DictFacts.

Lemma subset_spec (a b : list pyval) :
  subset a b = true <-> (forall k, In k a -> In k b).
Proof.
  unfold subset. rewrite forallb_forall. split; intros H k Hk.
  - apply H in Hk. apply existsb_exists in Hk as [k' [Hin E]].
    apply pyval_eqb_eq in E. now subst.
  - apply existsb_exists. exists k. split; [auto | apply pyval_eqb_refl].
Qed.

Lemma set_eqb_spec (a b : list pyval) :
  set_eqb a b = true <-> (forall k, In k a <-> In k b).
Proof.
  unfold set_eqb. rewrite andb_true_iff, !subset_spec. split.
  - intros [H1 H2] k. split; auto.
  - intros H. split; intros k; apply H.
Qed.

(* ================================================================== *)
(** ** Snapshot Fetcher: the cutoff timestamp *)

Lemma rounded_time_hour (t : Z) :
  rounded_time t = (round_down_to_multiple t 3600 + 5)%Z.
Proof.
  unfold rounded_time, round_down_to_multiple.
  pose proof (Z.div_mod t 3600). lia.
Qed.

(** C1, as stated, fails: with a granularity of 60 seconds at time 3661 the
    request carries 3605, while 3661 rounded down to a multiple of 60, plus
    5, is 3665. *)
Lemma cutoff_ignores_granularity :
  max_time (market_interval (archive_payload [PInt 1] 72 60 3661))
  <> (round_down_to_multiple 3661 60 + 5)%Z.
Proof. vm_compute. discriminate. Qed.

(** C1, amended: whatever the granularity, the cutoff [max_time] of the
    request is the current time rounded down to a multiple of 3600 seconds,
    plus 5; for the granularity 3600 that is the current time rounded down
    to a multiple of the granularity, plus 5. *)
Theorem cutoff_is_hour_plus_five (ids : list pyval) (cnt gran t : Z) :
  max_time (market_interval (archive_payload ids cnt gran t))
  = (round_down_to_multiple t 3600 + 5)%Z
  /\ max_time (market_interval (archive_payload ids cnt 3600 t))
     = (round_down_to_multiple t
          (granularity (market_interval (archive_payload ids cnt 3600 t))) + 5)%Z.
Proof.
  simpl. rewrite rounded_time_hour. auto.
Qed.

(** The request that the fetcher posts is [archive_payload]: the result
    depends on the server only through its answer to that payload. *)
Lemma fetch_sends_archive_payload (post post' : payload -> result archive_body)
    (t : Z) (ids : list pyval) (cnt gran : Z) (st : state) :
  post (archive_payload ids cnt gran t) = post' (archive_payload ids cnt gran t) ->
  get_historical_funding_rates post t ids cnt gran st
  = get_historical_funding_rates post' t ids cnt gran st.
Proof.
  intros H. unfold get_historical_funding_rates, try_except, bind, lift.
  now rewrite H.
Qed.

(* ================================================================== *)
(** ** Batch Planner *)

Section ChunkList.
Context {A : Type}.
Variable lst : list A.
Variable n : nat.
Hypothesis n_pos : 1 <= n.

Let chunk (i : nat) : list A := slice lst i (i + n).

Lemma slice_chunk (i : nat) : chunk i = firstn n (skipn i lst).
Proof. unfold chunk, slice. f_equal. lia. Qed.

Lemma concat_chunks_from (fuel i : nat) :
  List.length lst <= i + fuel ->
  List.concat (map chunk (range_from fuel i (List.length lst) n)) = skipn i lst.
Proof.
  revert i. induction fuel as [|fuel IH]; intros i Hfuel; simpl.
  - symmetry. apply skipn_all2. lia.
  - destruct (Nat.ltb_spec i (List.length lst)) as [Hlt|Hge]; simpl.
    + rewrite IH by lia. rewrite slice_chunk.
      rewrite Nat.add_comm, <- skipn_skipn. apply firstn_skipn.
    + symmetry. now apply skipn_all2.
Qed.

Lemma range_from_nth (fuel i stop k j : nat) :
  nth_error (range_from fuel i stop n) k = Some j ->
  j = i + k * n /\ j < stop.
Proof.
  revert i k. induction fuel as [|fuel IH]; intros i k; simpl.
  - now destruct k.
  - destruct (Nat.ltb_spec i stop) as [Hlt|Hge]; [|now destruct k].
    destruct k as [|k]; simpl.
    + intros [= <-]. lia.
    + intros H. apply IH in H. lia.
Qed.

Lemma range_from_next (fuel i stop k j : nat) :
  stop <= i + fuel ->
  nth_error (range_from fuel i stop n) k = Some j ->
  S k < List.length (range_from fuel i stop n) ->
  j + n < stop.
Proof.
  revert i k. induction fuel as [|fuel IH]; intros i k Hfuel; simpl.
  - now destruct k.
  - destruct (Nat.ltb_spec i stop) as [Hlt|Hge]; [|now destruct k].
    destruct k as [|k]; simpl.
    + intros [= <-] Hlen.
      destruct fuel as [|fuel]; simpl in Hlen; [lia|].
      destruct (Nat.ltb_spec (i + n) stop); [assumption | simpl in Hlen; lia].
    + intros H Hlen. apply (IH (i + n) k); [lia | assumption | lia].
Qed.

Lemma length_chunk (i : nat) :
  List.length (chunk i) = Nat.min n (List.length lst - i).
Proof. rewrite slice_chunk, length_firstn, length_skipn. reflexivity. Qed.

End ChunkList.

(** C3: for a batch size of at least 1 the planner returns slices, the
    k-th being [lst[k*n : k*n + n]], so that they follow one another without
    overlap in input order; their concatenation is the input; every slice
    holds between 1 and n ids and every slice but the last holds exactly n;
    an empty input gives no slice. *)
Theorem chunk_list_partitions {A : Type} (lst : list A) (n : nat) :
  1 <= n ->
  exists chunks,
    chunk_list lst n = Ok chunks
    /\ List.concat chunks = lst
    /\ (forall k c, nth_error chunks k = Some c ->
          c = firstn n (skipn (k * n) lst)
          /\ 1 <= List.length c <= n
          /\ (S k < List.length chunks -> List.length c = n))
    /\ (lst = [] -> chunks = []).
Proof.
  intros Hn. unfold chunk_list, range.
  destruct n as [|m]; [lia|]. simpl rbind.
  set (n := S m) in *.
  eexists. split; [reflexivity|]. split; [|split].
  - rewrite (concat_chunks_from lst n Hn (List.length lst) 0) by lia.
    reflexivity.
  - intros k c Hk. rewrite nth_error_map in Hk.
    destruct (nth_error (range_from (List.length lst) 0 (List.length lst) n) k)
      as [j|] eqn:Hj; [|discriminate].
    simpl in Hk. injection Hk as <-.
    assert (Hjk : j = 0 + k * n /\ j < List.length lst)
      by (eapply range_from_nth; eassumption).
    destruct Hjk as [Hjk Hlt]. simpl in Hjk. subst j.
    rewrite slice_chunk, length_firstn, length_skipn by exact Hn.
    split; [reflexivity|]. split; [lia|].
    rewrite length_map. intros Hlen.
    assert (k * n + n < List.length lst)
      by (eapply range_from_next; [exact Hn | | exact Hj | exact Hlen]; lia).
    lia.
  - intros ->. reflexivity.
Qed.

(** At batch size 3, seven ids go into three slices, the last one shorter. *)
Lemma chunk_list_partitions_holds :
  1 <= 3 /\
  exists chunks,
    chunk_list [1; 2; 3; 4; 5; 6; 7] 3 = Ok chunks
    /\ List.concat chunks = [1; 2; 3; 4; 5; 6; 7]
    /\ (forall k c, nth_error chunks k = Some c ->
          c = firstn 3 (skipn (k * 3) [1; 2; 3; 4; 5; 6; 7])
          /\ 1 <= List.length c <= 3
          /\ (S k < List.length chunks -> List.length c = 3))
    /\ ([1; 2; 3; 4; 5; 6; 7] = [] -> chunks = []).
Proof.
  split; [lia | apply (chunk_list_partitions [1; 2; 3; 4; 5; 6; 7] 3); lia].
Defined.

(* ================================================================== *)
(** ** Mapping Loader *)

(** The loader on a response whose records all carry both fields. *)
Lemma update_product_mapping_built (symbols : list jobject)
    (new_mapping : list (pyval * pyval)) (st : state) :
  dict_comprehension symbols [] = Ok new_mapping ->
  update_product_mapping (Ok symbols) st
  = if set_eqb (keys new_mapping) (keys (PRODUCT_MAPPING st))
    then (Ok tt, {| PRODUCT_MAPPING := PRODUCT_MAPPING st;
                    stdout := stdout st ++ [LogNoNewMapping];
                    archive_requests := archive_requests st;
                    vertexrates_txt := vertexrates_txt st |})
    else (Ok tt, {| PRODUCT_MAPPING := new_mapping;
                    stdout := stdout st ++ [LogMappingUpdated];
                    archive_requests := archive_requests st;
                    vertexrates_txt := vertexrates_txt st |}).
Proof.
  intros H.
  unfold update_product_mapping, try_except, bind, lift, read_mapping.
  rewrite H.
  destruct (set_eqb (keys new_mapping) (keys (PRODUCT_MAPPING st)));
    reflexivity.
Qed.

Lemma in_fold_note (l seen : list pyval) (x : pyval) :
  In x (fold_left note_ticker l seen) <-> In x seen \/ In x l.
Proof.
  revert seen. induction l as [|y l IH]; intros seen; simpl; [tauto|].
  rewrite IH. unfold note_ticker.
  destruct (existsb (pyval_eqb y) seen) eqn:E.
  - apply existsb_exists in E as [z [Hz Ez]].
    apply pyval_eqb_eq in Ez. subst z.
    split; [tauto|]. intros [H|[<-|H]]; auto.
  - rewrite in_app_iff. simpl. tauto.
Qed.

Lemma keys_set_note {V : Type} (k : pyval) (v : V) (d : list (pyval * V)) :
  keys (set pyval_eqb k v d) = note_ticker (keys d) k.
Proof.
  rewrite keys_set. unfold note_ticker, mem.
  induction d as [|[k' v'] t IH]; simpl.
  - reflexivity.
  - destruct (pyval_eqb k k'); [reflexivity|].
    destruct (get pyval_eqb k t), (existsb (pyval_eqb k) (keys t));
      simpl in *; congruence.
Qed.

Lemma get_set {V : Type} (k k' : pyval) (v : V) (d : list (pyval * V)) :
  get pyval_eqb k' (set pyval_eqb k v d)
  = if pyval_eqb k' k then Some v else get pyval_eqb k' d.
Proof.
  destruct (pyval_eqb k' k) eqn:E.
  - apply pyval_eqb_eq in E. subst. apply get_set_same.
  - apply pyval_eqb_neq in E. now apply get_set_other.
Qed.

(** What the dict comprehension builds from records that all carry both
    fields: the ids in the order of their first record, each with the
    ticker of its last record. *)
Lemma dict_comprehension_complete (symbols : list jobject)
    (acc : list (pyval * pyval)) :
  Forall complete_record symbols ->
  exists m,
    dict_comprehension symbols acc = Ok m
    /\ keys m = fold_left note_ticker (product_ids_of symbols) (keys acc)
    /\ (forall k, get pyval_eqb k m
                  = match last_ticker symbols k with
                    | Some v => Some v
                    | None => get pyval_eqb k acc
                    end).
Proof.
  intros Hall. revert acc.
  induction Hall as [|item rest [Hk Hv] _ IH]; intros acc; simpl.
  - exists acc. auto.
  - unfold subscript.
    destruct (get String.eqb "product_id" item) as [k0|]; [|contradiction].
    destruct (get String.eqb "ticker_id" item) as [v0|]; [|contradiction].
    simpl. destruct (IH (set pyval_eqb k0 v0 acc)) as [m [Hm [Hkeys Hget]]].
    exists m. split; [exact Hm|]. split.
    + now rewrite Hkeys, keys_set_note.
    + intros k. rewrite Hget, get_set.
      destruct (last_ticker rest k); [reflexivity|].
      now destruct (pyval_eqb k k0).
Qed.

(** C4: on a response whose records all carry a product id and a ticker,
    the stored mapping is replaced exactly when the set of product ids of
    the records of the response differs from the set of ids of the stored
    mapping.  When the two sets are the same the stored mapping stays as it
    was, whatever tickers the response carries; when they differ, the
    stored mapping becomes the one of the response: its ids, each with the
    ticker of the last record that carries it. *)
Theorem mapping_replaced_iff_ids_differ (symbols : list jobject) (st : state) :
  Forall complete_record symbols ->
  let same_ids :=
    forall k, In k (product_ids_of symbols)
              <-> In k (keys (PRODUCT_MAPPING st)) in
  let st' := snd (update_product_mapping (Ok symbols) st) in
  fst (update_product_mapping (Ok symbols) st) = Ok tt
  /\ (same_ids ->
      PRODUCT_MAPPING st' = PRODUCT_MAPPING st
      /\ stdout st' = stdout st ++ [LogNoNewMapping])
  /\ (~ same_ids ->
      keys (PRODUCT_MAPPING st') = first_appearances (product_ids_of symbols)
      /\ (forall k, get pyval_eqb k (PRODUCT_MAPPING st')
                    = last_ticker symbols k)
      /\ stdout st' = stdout st ++ [LogMappingUpdated]).
Proof.
  intros Hall same_ids st'. subst st'.
  destruct (dict_comprehension_complete symbols [] Hall)
    as [m [Hm [Hkeys Hget]]].
  rewrite (update_product_mapping_built _ _ _ Hm).
  assert (Hids : forall k, In k (keys m) <-> In k (product_ids_of symbols)).
  { intros k. rewrite Hkeys, in_fold_note. simpl. tauto. }
  destruct (set_eqb (keys m) (keys (PRODUCT_MAPPING st))) eqn:E; simpl.
  - pose proof (proj1 (set_eqb_spec _ _) E) as Hs.
    split; [reflexivity|]. split; [auto|].
    intros Hn. exfalso. apply Hn. intros k. rewrite <- Hids. apply Hs.
  - split; [reflexivity|]. split.
    + intros Hs. exfalso.
      assert (set_eqb (keys m) (keys (PRODUCT_MAPPING st)) = true).
      { apply set_eqb_spec. intros k. rewrite Hids. apply Hs. }
      congruence.
    + intros _. split; [exact Hkeys|]. split; [|reflexivity].
      intros k. rewrite Hget. now destruct (last_ticker symbols k).
Qed.

(** The stored mapping gives product 2 the ticker BTC-PERP.  A response that
    gives the same product another ticker leaves it as it is; a response
    that lists products 2 and 4 replaces it by the mapping of both. *)
Lemma mapping_replaced_iff_ids_differ_holds :
  let renamed := [[("product_id", PInt 2); ("ticker_id", PStr "BTC-USD")]] in
  let grown := [[("product_id", PInt 2); ("ticker_id", PStr "BTC-USD")];
                [("product_id", PInt 4); ("ticker_id", PStr "ETH-PERP")]] in
  let st := {| PRODUCT_MAPPING := [(PInt 2, PStr "BTC-PERP")];
               stdout := [];
               archive_requests := [];
               vertexrates_txt := None |} in
  Forall complete_record renamed
  /\ Forall complete_record grown
  /\ PRODUCT_MAPPING (snd (update_product_mapping (Ok renamed) st))
     = [(PInt 2, PStr "BTC-PERP")]
  /\ keys (PRODUCT_MAPPING (snd (update_product_mapping (Ok grown) st)))
     = [PInt 2; PInt 4]
  /\ get pyval_eqb (PInt 4)
       (PRODUCT_MAPPING (snd (update_product_mapping (Ok grown) st)))
     = Some (PStr "ETH-PERP").
Proof.
  intros renamed grown st.
  assert (H1 : Forall complete_record renamed)
    by (repeat constructor; discriminate).
  assert (H2 : Forall complete_record grown)
    by (repeat constructor; discriminate).
  split; [exact H1|]. split; [exact H2|].
  destruct (mapping_replaced_iff_ids_differ renamed st H1) as [_ [Hsame _]].
  destruct (mapping_replaced_iff_ids_differ grown st H2) as [_ [_ Hdiff]].
  split.
  - apply Hsame. intros k. reflexivity.
  - assert (Hne : ~ (forall k, In k (product_ids_of grown)
                               <-> In k (keys (PRODUCT_MAPPING st)))).
    { intros H. destruct (proj1 (H (PInt 4))) as [E|[]].
      - right. left. reflexivity.
      - discriminate E. }
    destruct (Hdiff Hne) as [Hkeys [Hget _]].
    split; [exact Hkeys | exact (Hget (PInt 4))].
Defined.

Lemma dict_comprehension_missing (symbols : list jobject)
    (acc : list (pyval * pyval)) :
  (exists item, In item symbols
     /\ (get String.eqb "product_id" item = None
         \/ get String.eqb "ticker_id" item = None)) ->
  exists field, (field = "product_id" \/ field = "ticker_id")
    /\ dict_comprehension symbols acc = Raise (KeyError field).
Proof.
  revert acc. induction symbols as [|item rest IH]; intros acc [bad [Hin Hbad]].
  - destruct Hin.
  - simpl. unfold subscript.
    destruct (get String.eqb "product_id" item) as [k|] eqn:Ek.
    + destruct (get String.eqb "ticker_id" item) as [v|] eqn:Ev.
      * simpl. apply IH. destruct Hin as [<-|Hin].
        -- destruct Hbad; congruence.
        -- exists bad. auto.
      * exists "ticker_id". auto.
    + exists "product_id". auto.
Qed.

(** C10: when a record of a decoded assets response lacks the field
    product_id or ticker_id, the loader raises [KeyError] for that field,
    which its handler for request errors does not catch, and the state (the
    stored mapping with it) is what it was before the call. *)
Theorem missing_field_raises_mapping_kept (symbols : list jobject)
    (st : state) :
  (exists item, In item symbols
     /\ (get String.eqb "product_id" item = None
         \/ get String.eqb "ticker_id" item = None)) ->
  exists field, (field = "product_id" \/ field = "ticker_id")
    /\ is_RequestException (KeyError field) = false
    /\ update_product_mapping (Ok symbols) st = (Raise (KeyError field), st).
Proof.
  intros H. destruct (dict_comprehension_missing symbols [] H) as [f [Hf E]].
  exists f. split; [assumption|]. split; [reflexivity|].
  unfold update_product_mapping, try_except, bind, lift. rewrite E. reflexivity.
Qed.

(** A response whose second record has no ticker_id. *)
Lemma missing_field_raises_mapping_kept_holds :
  let symbols := [[("product_id", PInt 2); ("ticker_id", PStr "BTC-PERP")];
                  [("product_id", PInt 4)]] in
  let st := {| PRODUCT_MAPPING := [(PInt 9, PStr "OLD-PERP")];
               stdout := [];
               archive_requests := [];
               vertexrates_txt := None |} in
  (exists item, In item symbols
     /\ (get String.eqb "product_id" item = None
         \/ get String.eqb "ticker_id" item = None))
  /\ exists field, (field = "product_id" \/ field = "ticker_id")
       /\ is_RequestException (KeyError field) = false
       /\ update_product_mapping (Ok symbols) st = (Raise (KeyError field), st).
Proof.
  intros symbols st.
  assert (H : exists item, In item symbols
     /\ (get String.eqb "product_id" item = None
         \/ get String.eqb "ticker_id" item = None)).
  { exists [("product_id", PInt 4)]. split; [right; left; reflexivity|].
    right. reflexivity. }
  split; [exact H|].
  exact (missing_field_raises_mapping_kept symbols st H).
Defined.

(* ================================================================== *)
(** ** Rate Processor *)

Lemma mem_set_same {V : Type} (k : pyval) (v : V) (d : list (pyval * V)) :
  mem pyval_eqb k (set pyval_eqb k v d) = true.
Proof. unfold mem. now rewrite get_set_same. Qed.

Lemma set_set_absent {V : Type} (k : pyval) (v w : V) (d : list (pyval * V)) :
  get pyval_eqb k d = None ->
  set pyval_eqb k w (set pyval_eqb k v d) = set pyval_eqb k w d.
Proof.
  induction d as [|[k' v'] t IH]; simpl.
  - now rewrite pyval_eqb_refl.
  - destruct (pyval_eqb k k') eqn:E; [discriminate|].
    intros H. simpl. rewrite E. now rewrite IH.
Qed.

Lemma recorded_append_same (t : pyval) (e : entry) (fd : funding_data) :
  recorded (append_entry t e fd) t e.
Proof.
  unfold recorded, append_entry. rewrite get_set_same.
  eexists. split; [reflexivity|]. apply in_or_app. right. now left.
Qed.

Lemma recorded_append_mono (t t' : pyval) (e e' : entry) (fd : funding_data) :
  recorded fd t' e' -> recorded (append_entry t e fd) t' e'.
Proof.
  intros [l [Hget Hin]]. unfold recorded, append_entry.
  destruct (pyval_eqb t' t) eqn:E.
  - apply pyval_eqb_eq in E. subst t'. rewrite get_set_same, Hget.
    eexists. split; [reflexivity|]. apply in_or_app. now left.
  - apply pyval_eqb_neq in E. rewrite get_set_other by assumption.
    exists l. auto.
Qed.

Lemma total_entries_append (t : pyval) (e : entry) (fd : funding_data) :
  total_entries (append_entry t e fd) = S (total_entries fd).
Proof.
  unfold total_entries, append_entry.
  induction fd as [|[k l] rest IH]; simpl.
  - reflexivity.
  - destruct (pyval_eqb t k) eqn:E; simpl.
    + rewrite length_app. simpl. lia.
    + rewrite IH. lia.
Qed.

Lemma NoDup_keys_append (t : pyval) (e : entry) (fd : funding_data) :
  NoDup (keys fd) -> NoDup (keys (append_entry t e fd)).
Proof. apply NoDup_keys_set. Qed.

Section RateProcessor.

Variable py_int : string -> option Z.
Variable py_float : string -> option F64.float.
Variable mapping : list (pyval * pyval).

Let step (ts : option Z) := process_pair py_int py_float mapping ts.

(** One turn of the inner loop never raises: it appends one entry to the
    list of the ticker it resolved. *)
Lemma process_pair_appends (ts : option Z) (fd : funding_data)
    (kv : string * string) :
  process_pair py_int py_float mapping ts fd kv
  = Ok (append_entry (ticker_of py_int mapping (fst kv))
          (new_entry ts (raw_value_of py_float (snd kv))) fd).
Proof.
  unfold process_pair, ticker_of, prod_id_of, raw_value_of, int_, float_.
  destruct (py_int (fst kv)) as [z|]; simpl;
    destruct (py_float (snd kv)) as [x|]; simpl;
    match goal with
    | |- context [mem pyval_eqb ?t fd] =>
        unfold mem, subscript, append_entry;
        destruct (get pyval_eqb t fd) as [l|] eqn:E; simpl;
        [ rewrite E; reflexivity
        | rewrite get_set_same; simpl; now rewrite set_set_absent ]
    end.
Qed.

Lemma process_snapshot_total (s : snapshot) (fd : funding_data) :
  exists fd',
    process_snapshot py_int py_float mapping fd s = Ok fd'
    /\ total_entries fd' = total_entries fd + List.length (items_of s)
    /\ (NoDup (keys fd) -> NoDup (keys fd'))
    /\ (forall t e, recorded fd t e -> recorded fd' t e)
    /\ (forall kv, In kv (items_of s) ->
          recorded fd' (ticker_of py_int mapping (fst kv))
            (new_entry (timestamp s) (raw_value_of py_float (snd kv)))).
Proof.
  unfold process_snapshot. fold (items_of s).
  generalize (items_of s) as items. intros items. revert fd.
  induction items as [|kv items IH]; intros fd; simpl.
  - exists fd. repeat split; auto; try lia; now intros kv [].
  - rewrite process_pair_appends. simpl.
    destruct (IH (append_entry (ticker_of py_int mapping (fst kv))
                    (new_entry (timestamp s)
                       (raw_value_of py_float (snd kv))) fd))
      as [fd' [Hok [Htot [Hnd [Hmono Hrec]]]]].
    exists fd'. split; [exact Hok|]. split; [|split; [|split]].
    + rewrite Htot, total_entries_append. lia.
    + intros H. apply Hnd. now apply NoDup_keys_append.
    + intros t e H. apply Hmono. now apply recorded_append_mono.
    + intros kv' [<-|Hin].
      * apply Hmono. apply recorded_append_same.
      * now apply Hrec.
Qed.

Lemma process_snapshots_total (snapshots : list snapshot) (fd : funding_data) :
  exists fd',
    rfold (process_snapshot py_int py_float mapping) snapshots fd = Ok fd'
    /\ total_entries fd' = total_entries fd + total_pairs snapshots
    /\ (NoDup (keys fd) -> NoDup (keys fd'))
    /\ (forall t e, recorded fd t e -> recorded fd' t e)
    /\ (forall s kv, In s snapshots -> In kv (items_of s) ->
          recorded fd' (ticker_of py_int mapping (fst kv))
            (new_entry (timestamp s) (raw_value_of py_float (snd kv)))).
Proof.
  revert fd. induction snapshots as [|s rest IH]; intros fd; simpl.
  - exists fd. repeat split; auto; now intros s kv [].
  - destruct (process_snapshot_total s fd)
      as [fd1 [Hok1 [Htot1 [Hnd1 [Hmono1 Hrec1]]]]].
    rewrite Hok1. simpl.
    destruct (IH fd1) as [fd' [Hok [Htot [Hnd [Hmono Hrec]]]]].
    exists fd'. split; [exact Hok|]. split; [|split; [|split]].
    + rewrite Htot, Htot1. unfold total_pairs. simpl. lia.
    + auto.
    + auto.
    + intros s' kv [<-|Hin] Hkv.
      * apply Hmono. now apply Hrec1.
      * now apply Hrec.
Qed.

End RateProcessor.

(** What the Rate Processor returns, for any reading of [int] and [float]:
    it never raises, leaves the state alone, keeps one entry per pair of the
    snapshots, and files each pair under its ticker. *)
Lemma process_funding_rates_total (py_int : string -> option Z)
    (py_float : string -> option F64.float)
    (snapshots : list snapshot) (st : state) :
  exists fd,
    process_funding_rates py_int py_float snapshots st = (Ok fd, st)
    /\ total_entries fd = total_pairs snapshots
    /\ NoDup (keys fd)
    /\ (forall s kv, In s snapshots -> In kv (items_of s) ->
          recorded fd (ticker_of py_int (PRODUCT_MAPPING st) (fst kv))
            (new_entry (timestamp s) (raw_value_of py_float (snd kv)))).
Proof.
  destruct (process_snapshots_total py_int py_float (PRODUCT_MAPPING st)
              snapshots []) as [fd [Hok [Htot [Hnd [_ Hrec]]]]].
  exists fd. unfold process_funding_rates, bind, read_mapping, lift.
  rewrite Hok. repeat split; auto. apply Hnd. constructor.
Qed.

Lemma hourly_percentage_zero : hourly_percentage F64.zero = S754_zero false.
Proof. reflexivity. Qed.

Lemma hourly_percentage_example :
  hourly_percentage (F64.of_Z 2400000000000000000) = F64.of_Z 10.
Proof. vm_compute. reflexivity. Qed.

(** *** The Rate Processor on unvalidated JSON *)

Section JsonProcessor.

Variable py_int : string -> option Z.
Variable py_float : string -> option F64.float.
Variable mapping : list (pyval * pyval).

Let jappend (t : pyval) (e : jentry) (fd : jfunding_data) : jfunding_data :=
  set pyval_eqb t
      (match get pyval_eqb t fd with Some l => l | None => [] end ++ [e]) fd.



(** On a pair whose rate is a string, one turn of the inner loop appends
    one entry and raises nothing. *)
Lemma process_pair_json_string (ts : json) (fd : jfunding_data)
    (k r : string) :
  process_pair_json py_int py_float mapping ts fd (k, JStr r)
  = Ok (jappend (ticker_of py_int mapping k)
          (new_jentry ts (raw_value_of py_float r)) fd).
Proof.
  unfold process_pair_json, ticker_of, prod_id_of, raw_value_of, int_,
    float_json, float_. simpl fst. simpl snd.
  destruct (py_int k) as [z|]; simpl;
    destruct (py_float r) as [x|]; simpl;
    match goal with
    | |- context [mem pyval_eqb ?t fd] =>
        unfold mem, subscript, jappend;
        destruct (get pyval_eqb t fd) as [l|] eqn:E; simpl;
        [ rewrite E; reflexivity
        | rewrite get_set_same; simpl; now rewrite set_set_absent ]
    end.
Qed.




(** On pairs of the documented shape the JSON-level loop does what the
    typed one does. *)
Lemma get_funding_data_json (t : pyval) (fd : funding_data) :
  get pyval_eqb t (funding_data_json fd)
  = option_map (map entry_json) (get pyval_eqb t fd).
Proof.
  induction fd as [|[t' l] rest IH]; simpl; [reflexivity|].
  now destruct (pyval_eqb t t').
Qed.

Lemma set_funding_data_json (t : pyval) (l : list entry) (fd : funding_data) :
  set pyval_eqb t (map entry_json l) (funding_data_json fd)
  = funding_data_json (set pyval_eqb t l fd).
Proof.
  induction fd as [|[t' l'] rest IH]; simpl; [reflexivity|].
  destruct (pyval_eqb t t'); simpl; [reflexivity|]. now rewrite IH.
Qed.

Lemma jappend_funding_data_json (t : pyval) (e : entry) (fd : funding_data) :
  jappend t (entry_json e) (funding_data_json fd)
  = funding_data_json (append_entry t e fd).
Proof.
  unfold jappend, append_entry. rewrite get_funding_data_json.
  rewrite <- set_funding_data_json. f_equal.
  destruct (get pyval_eqb t fd); simpl; now rewrite ?map_app.
Qed.

Lemma process_pairs_json_typed (ts : option Z) (pairs : list (string * string))
    (fd fd' : funding_data) :
  rfold (process_pair py_int py_float mapping ts) pairs fd = Ok fd' ->
  rfold (process_pair_json py_int py_float mapping
           (match ts with Some z => JInt z | None => JNull end))
        (map (fun kv => (fst kv, JStr (snd kv))) pairs) (funding_data_json fd)
  = Ok (funding_data_json fd').
Proof.
  revert fd. induction pairs as [|[k r] pairs IH]; intros fd; simpl.
  - now intros [= ->].
  - rewrite process_pair_appends, process_pair_json_string. simpl.
    intros H. rewrite <- (IH _ H). f_equal.
    exact (jappend_funding_data_json _ (new_entry ts _) fd).
Qed.

Lemma process_snapshot_json_typed (s : snapshot) (fd fd' : funding_data) :
  process_snapshot py_int py_float mapping fd s = Ok fd' ->
  process_snapshot_json py_int py_float mapping (funding_data_json fd)
    (snapshot_json s)
  = Ok (funding_data_json fd').
Proof.
  unfold process_snapshot, process_snapshot_json, snapshot_json, jget, jitems,
    get_default.
  destruct (timestamp s) as [z|], (funding_rates s) as [d|]; simpl; intros H.
  - exact (process_pairs_json_typed (Some z) d fd fd' H).
  - now injection H as <-.
  - exact (process_pairs_json_typed None d fd fd' H).
  - now injection H as <-.
Qed.

Lemma process_snapshots_json_typed (snapshots : list snapshot)
    (fd fd' : funding_data) :
  rfold (process_snapshot py_int py_float mapping) snapshots fd = Ok fd' ->
  rfold (process_snapshot_json py_int py_float mapping)
        (map snapshot_json snapshots) (funding_data_json fd)
  = Ok (funding_data_json fd').
Proof.
  revert fd. induction snapshots as [|s rest IH]; intros fd; simpl.
  - now intros [= ->].
  - destruct (process_snapshot py_int py_float mapping fd s) as [fd1|e] eqn:E;
      simpl; [|discriminate].
    intros H. rewrite (process_snapshot_json_typed _ _ _ E). simpl.
    now apply IH.
Qed.

End JsonProcessor.

(** On snapshots of the documented shape the Rate Processor on JSON returns
    the funding data that the typed Rate Processor returns. *)
Lemma process_funding_rates_json_typed (py_int : string -> option Z)
    (py_float : string -> option F64.float)
    (snapshots : list snapshot) (st : state) :
  exists fd,
    process_funding_rates py_int py_float snapshots st = (Ok fd, st)
    /\ process_funding_rates_json py_int py_float (map snapshot_json snapshots) st
       = (Ok (funding_data_json fd), st).
Proof.
  destruct (process_snapshots_total py_int py_float (PRODUCT_MAPPING st)
              snapshots []) as [fd [Hok _]].
  exists fd.
  unfold process_funding_rates, process_funding_rates_json, bind, read_mapping,
    lift.
  rewrite Hok.
  pose proof (process_snapshots_json_typed py_int py_float _ _ [] fd Hok) as H.
  simpl funding_data_json in H at 1. now rewrite H.
Qed.


(** The same with funding_rates null: [None] has no [items]. *)
Lemma null_funding_rates_raises_attribute_error :
  process_funding_rates_json Ref.int Ref.float
    [JObj [("timestamp", JInt 100); ("funding_rates", JNull)]] empty_state
  = (Raise AttributeError, empty_state).
Proof. reflexivity. Qed.



(** C6: the Rate Processor keeps one entry for each (product id, rate) pair
    of the snapshots, and a pair whose product id is not a key of the
    product mapping has its entry in the list of the ticker
    [Unknown(<id>)], [<id>] being the product id as [str] prints it. *)
Theorem unknown_product_labelled_and_kept (py_int : string -> option Z)
    (py_float : string -> option F64.float)
    (snapshots : list snapshot) (st : state) :
  exists fd,
    process_funding_rates py_int py_float snapshots st = (Ok fd, st)
    /\ total_entries fd = total_pairs snapshots
    /\ (forall s k r,
          In s snapshots -> In (k, r) (items_of s) ->
          get pyval_eqb (prod_id_of py_int k) (PRODUCT_MAPPING st) = None ->
          recorded fd (PStr ("Unknown(" ++ str (prod_id_of py_int k) ++ ")"))
            (new_entry (timestamp s) (raw_value_of py_float r))).
Proof.
  destruct (process_funding_rates_total py_int py_float snapshots st)
    as [fd [Hok [Htot [_ Hrec]]]].
  exists fd. split; [exact Hok|]. split; [exact Htot|].
  intros s k r Hs Hkr Habs.
  specialize (Hrec s (k, r) Hs Hkr). simpl in Hrec.
  unfold ticker_of, get_default in Hrec. rewrite Habs in Hrec. exact Hrec.
Qed.

(** Product 7 is not in a mapping that only knows product 2. *)
Lemma unknown_product_labelled_and_kept_holds :
  let s := {| timestamp := Some 100%Z;
              funding_rates := Some [("2", "5"); ("7", "12")] |} in
  let st := {| PRODUCT_MAPPING := [(PInt 2, PStr "BTC-PERP")];
               stdout := [];
               archive_requests := [];
               vertexrates_txt := None |} in
  In s [s] /\ In ("7", "12") (items_of s)
  /\ get pyval_eqb (prod_id_of Ref.int "7") (PRODUCT_MAPPING st) = None
  /\ exists fd,
       process_funding_rates Ref.int Ref.float [s] st = (Ok fd, st)
       /\ total_entries fd = 2
       /\ recorded fd (PStr "Unknown(7)")
            (new_entry (Some 100%Z) (F64.of_Z 12)).
Proof.
  intros s st.
  assert (Hs : In s [s]) by (left; reflexivity).
  assert (Hkr : In ("7", "12") (items_of s)) by (right; left; reflexivity).
  assert (Habs : get pyval_eqb (prod_id_of Ref.int "7") (PRODUCT_MAPPING st)
                 = None) by reflexivity.
  split; [exact Hs|]. split; [exact Hkr|]. split; [exact Habs|].
  destruct (unknown_product_labelled_and_kept Ref.int Ref.float [s] st)
    as [fd [Hok [Htot Hrec]]].
  exists fd. split; [exact Hok|]. split; [exact Htot|].
  exact (Hrec s "7" "12" Hs Hkr Habs).
Defined.

(** C9: for every pair of a snapshot whose rate string [float] reads as
    [raw], the entry filed for it has the rate [((raw / 1e18) / 24) * 100]
    in binary64 arithmetic; when the rate string is 2400000000000000000,
    which [float] reads as 2.4e18, that rate is exactly 10.0. *)
Theorem hourly_percentage_of_raw_rate (py_int : string -> option Z)
    (py_float : string -> option F64.float)
    (snapshots : list snapshot) (st : state) :
  exists fd,
    process_funding_rates py_int py_float snapshots st = (Ok fd, st)
    /\ (forall s k r raw,
          In s snapshots -> In (k, r) (items_of s) -> py_float r = Some raw ->
          recorded fd (ticker_of py_int (PRODUCT_MAPPING st) k)
            {| e_timestamp := timestamp s;
               funding_rate :=
                 F64.mul
                   (F64.div (F64.div raw (F64.of_Z (10 ^ 18))) (F64.of_Z 24))
                   (F64.of_Z 100) |})
    /\ (py_float "2400000000000000000"
        = Some (F64.of_Z 2400000000000000000) ->
        forall s k,
          In s snapshots -> In (k, "2400000000000000000") (items_of s) ->
          recorded fd (ticker_of py_int (PRODUCT_MAPPING st) k)
            {| e_timestamp := timestamp s; funding_rate := F64.of_Z 10 |}).
Proof.
  destruct (process_funding_rates_total py_int py_float snapshots st)
    as [fd [Hok [_ [_ Hrec]]]].
  exists fd. split; [exact Hok|].
  assert (H : forall s k r raw,
             In s snapshots -> In (k, r) (items_of s) -> py_float r = Some raw ->
             recorded fd (ticker_of py_int (PRODUCT_MAPPING st) k)
               (new_entry (timestamp s) raw)).
  { intros s k r raw Hs Hkr Hraw.
    specialize (Hrec s (k, r) Hs Hkr). simpl in Hrec.
    unfold raw_value_of in Hrec. rewrite Hraw in Hrec. exact Hrec. }
  split.
  - exact H.
  - intros Hread s k Hs Hk.
    specialize (H s k _ _ Hs Hk Hread).
    unfold new_entry in H. rewrite hourly_percentage_example in H. exact H.
Qed.

(** One snapshot with the rate string 2400000000000000000 for product 2. *)
Lemma hourly_percentage_of_raw_rate_holds :
  let s := {| timestamp := Some 100%Z;
              funding_rates := Some [("2", "2400000000000000000")] |} in
  let st := {| PRODUCT_MAPPING := [(PInt 2, PStr "BTC-PERP")];
               stdout := [];
               archive_requests := [];
               vertexrates_txt := None |} in
  Ref.float "2400000000000000000" = Some (F64.of_Z 2400000000000000000)
  /\ In s [s] /\ In ("2", "2400000000000000000") (items_of s)
  /\ exists fd,
       process_funding_rates Ref.int Ref.float [s] st = (Ok fd, st)
       /\ recorded fd (PStr "BTC-PERP")
            {| e_timestamp := Some 100%Z; funding_rate := F64.of_Z 10 |}.
Proof.
  intros s st.
  assert (Hread : Ref.float "2400000000000000000"
                  = Some (F64.of_Z 2400000000000000000)) by reflexivity.
  assert (Hs : In s [s]) by (left; reflexivity).
  assert (Hk : In ("2", "2400000000000000000") (items_of s))
    by (left; reflexivity).
  split; [exact Hread|]. split; [exact Hs|]. split; [exact Hk|].
  destruct (hourly_percentage_of_raw_rate Ref.int Ref.float [s] st)
    as [fd [Hok [_ Hten]]].
  exists fd. split; [exact Hok|].
  exact (Hten Hread s "2" Hs Hk).
Defined.

(* ================================================================== *)
(** ** Order of binary64 values *)

Ltac compare_cases :=
  repeat match goal with
  | |- context [Z.compare ?a ?b] => destruct (Z.compare_spec a b)
  | H : context [Z.compare ?a ?b] |- _ => destruct (Z.compare_spec a b)
  | |- context [Pos.compare_cont Eq ?a ?b] =>
      change (Pos.compare_cont Eq a b) with (Pos.compare a b);
      destruct (Pos.compare_spec a b)
  | H : context [Pos.compare_cont Eq ?a ?b] |- _ =>
      change (Pos.compare_cont Eq a b) with (Pos.compare a b) in H;
      destruct (Pos.compare_spec a b)
  end.

Ltac float_order :=
  unfold F64.ltb, F64.leb, F64.eqb, F64.is_nan,
         SFltb, SFleb, SFeqb, SFcompare;
  repeat match goal with
  | x : F64.float |- _ => destruct x
  | s : bool |- _ => destruct s
  end;
  simpl; intros; try discriminate; try reflexivity;
  subst; compare_cases; simpl in *; subst;
  try discriminate; try reflexivity; try lia.

Lemma F64_leb_trans (a b c : F64.float) :
  F64.leb a b = true -> F64.leb b c = true -> F64.leb a c = true.
Proof. float_order. Qed.

Lemma F64_ltb_false_leb (a b : F64.float) :
  F64.is_nan a = false -> F64.is_nan b = false ->
  F64.ltb a b = false -> F64.leb b a = true.
Proof. float_order. Qed.

Lemma F64_ltb_leb (a b : F64.float) :
  F64.ltb a b = true -> F64.leb a b = true.
Proof. float_order. Qed.

Lemma F64_leb_not_ltb (a b : F64.float) :
  F64.leb b a = true -> F64.ltb a b = false.
Proof. float_order. Qed.

Lemma F64_eqb_not_ltb (a b k : F64.float) :
  F64.eqb a k = true -> F64.eqb b k = true -> F64.ltb a b = false.
Proof. float_order. Qed.

Lemma F64_eqb_refl (a : F64.float) :
  F64.is_nan a = false -> F64.eqb a a = true.
Proof.
  float_order;
    repeat match goal with
    | H : (_ < _)%Z |- _ => apply Z.lt_irrefl in H; destruct H
    | H : (_ < _)%positive |- _ => apply Pos.lt_irrefl in H; destruct H
    end.
Qed.

Lemma F64_leb_antisym (a b : F64.float) :
  F64.leb a b = true -> F64.leb b a = true -> F64.eqb a b = true.
Proof. float_order. Qed.

Lemma F64_eqb_congr (a b k : F64.float) :
  F64.eqb a b = true -> F64.eqb a k = F64.eqb b k.
Proof. float_order. Qed.

(* ================================================================== *)
(** ** The sort of the Aggregator *)

Section SortFacts.
Context {A : Type}.
Variable key : A -> F64.float.

Let above (a b : A) : Prop := F64.leb (key b) (key a) = true.
Let number (a : A) : Prop := F64.is_nan (key a) = false.

Lemma insert_desc_perm (x : A) (l : list A) :
  Permutation (insert_desc key x l) (x :: l).
Proof.
  induction l as [|y t IH]; simpl.
  - reflexivity.
  - destruct (F64.ltb (key x) (key y)).
    + rewrite IH. apply perm_swap.
    + reflexivity.
Qed.

Lemma sorted_reverse_perm (l : list A) : Permutation (sorted_reverse key l) l.
Proof.
  induction l as [|x t IH]; simpl.
  - reflexivity.
  - rewrite insert_desc_perm. now constructor.
Qed.

Lemma insert_desc_sorted (x : A) (l : list A) :
  number x -> Forall number l ->
  StronglySorted above l -> StronglySorted above (insert_desc key x l).
Proof.
  intros Hx Hl Hs. induction Hs as [|y t Hs IH Hy]; simpl.
  - repeat constructor.
  - inversion Hl as [|? ? Hny Hnt]; subst.
    destruct (F64.ltb (key x) (key y)) eqn:E.
    + constructor; [now apply IH|].
      apply (Permutation_Forall (Permutation_sym (insert_desc_perm x t))).
      constructor; [|assumption].
      unfold above. now apply F64_ltb_leb.
    + assert (Hxy : above x y)
        by (unfold above; now apply F64_ltb_false_leb).
      constructor; [now constructor|].
      constructor; [assumption|].
      eapply Forall_impl; [|exact Hy].
      intros z Hz. unfold above in *. eapply F64_leb_trans; eassumption.
Qed.

Lemma sorted_reverse_sorted (l : list A) :
  Forall number l -> StronglySorted above (sorted_reverse key l).
Proof.
  induction l as [|x t IH]; intros Hl; simpl.
  - constructor.
  - inversion Hl; subst. apply insert_desc_sorted; auto.
    apply (Permutation_Forall (Permutation_sym (sorted_reverse_perm t))).
    assumption.
Qed.

Lemma insert_desc_stable (k : F64.float) (x : A) (l : list A) :
  filter (fun a => F64.eqb (key a) k) (insert_desc key x l)
  = filter (fun a => F64.eqb (key a) k) (x :: l).
Proof.
  induction l as [|y t IH]; simpl.
  - reflexivity.
  - destruct (F64.ltb (key x) (key y)) eqn:E; [|reflexivity].
    simpl. rewrite IH. simpl.
    destruct (F64.eqb (key x) k) eqn:Ex, (F64.eqb (key y) k) eqn:Ey;
      try reflexivity.
    rewrite (F64_eqb_not_ltb _ _ _ Ex Ey) in E. discriminate.
Qed.

Lemma sorted_reverse_stable (k : F64.float) (l : list A) :
  filter (fun a => F64.eqb (key a) k) (sorted_reverse key l)
  = filter (fun a => F64.eqb (key a) k) l.
Proof.
  induction l as [|x t IH]; simpl.
  - reflexivity.
  - rewrite insert_desc_stable. simpl. now rewrite IH.
Qed.

(** A list of numbers has one stable descending arrangement only: two
    descending lists in which the items of each key stand in the same
    order are equal.  The result of [sorted_reverse] is therefore that of
    any stable sort. *)
Lemma stable_descending_unique (l1 l2 : list A) :
  Forall number l1 -> Forall number l2 ->
  StronglySorted above l1 -> StronglySorted above l2 ->
  (forall k, filter (fun a => F64.eqb (key a) k) l1
             = filter (fun a => F64.eqb (key a) k) l2) ->
  l1 = l2.
Proof.
  revert l2. induction l1 as [|a t1 IH]; intros l2 Hn1 Hn2 Hs1 Hs2 Hf.
  - destruct l2 as [|b t2]; [reflexivity|].
    inversion Hn2 as [|? ? Hb _]; subst.
    specialize (Hf (key b)). simpl in Hf.
    rewrite (F64_eqb_refl _ Hb) in Hf. discriminate.
  - inversion Hn1 as [|? ? Ha Hn1']; subst.
    inversion Hs1 as [|? ? Hs1' Hall1]; subst.
    destruct l2 as [|b t2].
    + specialize (Hf (key a)). simpl in Hf.
      rewrite (F64_eqb_refl _ Ha) in Hf. discriminate.
    + inversion Hn2 as [|? ? Hb Hn2']; subst.
      inversion Hs2 as [|? ? Hs2' Hall2]; subst.
      assert (Hab : F64.leb (key a) (key b) = true).
      { assert (Hin : In a (filter (fun x => F64.eqb (key x) (key a)) (b :: t2))).
        { rewrite <- (Hf (key a)). simpl. rewrite (F64_eqb_refl _ Ha).
          now left. }
        apply filter_In in Hin as [[<-|Hin] _].
        - apply F64_ltb_false_leb; auto. apply F64_eqb_not_ltb with (key b);
            now apply F64_eqb_refl.
        - rewrite Forall_forall in Hall2. now apply Hall2. }
      assert (Hba : F64.leb (key b) (key a) = true).
      { assert (Hin : In b (filter (fun x => F64.eqb (key x) (key b)) (a :: t1))).
        { rewrite (Hf (key b)). simpl. rewrite (F64_eqb_refl _ Hb).
          now left. }
        apply filter_In in Hin as [[<-|Hin] _].
        - assumption.
        - rewrite Forall_forall in Hall1. now apply Hall1. }
      pose proof (F64_leb_antisym _ _ Hab Hba) as Heq.
      assert (a = b).
      { pose proof (Hf (key b)) as H. simpl in H.
        rewrite (F64_eqb_refl _ Hb), Heq in H. now injection H. }
      subst b. f_equal. apply IH; auto.
      intros k. specialize (Hf k). simpl in Hf.
      destruct (F64.eqb (key a) k); [now injection Hf | assumption].
Qed.


(** Whatever stable sort the built-in runs, on numbers it returns what
    [sorted_reverse] returns. *)
Lemma sorted_reverse_unique (l l' : list A) :
  Forall number l ->
  Permutation l' l ->
  StronglySorted above l' ->
  (forall k, filter (fun a => F64.eqb (key a) k) l'
             = filter (fun a => F64.eqb (key a) k) l) ->
  l' = sorted_reverse key l.
Proof.
  intros Hn Hp Hs Hf. apply stable_descending_unique.
  - apply (Permutation_Forall (Permutation_sym Hp)). exact Hn.
  - apply (Permutation_Forall (Permutation_sym (sorted_reverse_perm l))).
    exact Hn.
  - exact Hs.
  - now apply sorted_reverse_sorted.
  - intros k. now rewrite Hf, sorted_reverse_stable.
Qed.

End SortFacts.

(* ================================================================== *)
(** ** Aggregator *)

Lemma set_absent {V : Type} (k : pyval) (v : V) (d : list (pyval * V)) :
  get pyval_eqb k d = None -> set pyval_eqb k v d = d ++ [(k, v)].
Proof.
  induction d as [|[k' v'] t IH]; simpl.
  - reflexivity.
  - destruct (pyval_eqb k k'); [discriminate|]. intros H. now rewrite IH.
Qed.

Section Aggregator.

Variable py_sum : list F64.float -> F64.float.

Let averaged (te : pyval * list entry) : pyval * F64.float :=
  (fst te, average_rate py_sum (snd te)).

Lemma average_rates_from (fd : funding_data)
    (acc : list (pyval * F64.float)) :
  NoDup (keys acc ++ keys fd) ->
  fold_left
    (fun acc te =>
       set pyval_eqb (fst te) (average_rate py_sum (snd te)) acc) fd acc
  = acc ++ map averaged fd.
Proof.
  revert acc. induction fd as [|[t es] rest IH]; intros acc Hnd; simpl.
  - now rewrite app_nil_r.
  - rewrite set_absent.
    + rewrite IH.
      * now rewrite <- app_assoc.
      * unfold keys in *. rewrite map_app. simpl.
        now rewrite <- app_assoc.
    + apply get_none_not_in. simpl in Hnd.
      apply NoDup_remove_2 in Hnd. intros H. apply Hnd.
      apply in_or_app. now left.
Qed.

(** On a dictionary the loop of step 5 keeps the tickers in their order
    and gives each its average. *)
Lemma average_rates_map (fd : funding_data) :
  NoDup (keys fd) -> average_rates py_sum fd = map averaged fd.
Proof.
  intros H. unfold average_rates. now rewrite average_rates_from.
Qed.

Lemma average_rates_keys (fd : funding_data) :
  NoDup (keys fd) -> keys (average_rates py_sum fd) = keys fd.
Proof.
  intros H. rewrite average_rates_map by assumption.
  unfold keys. rewrite map_map. reflexivity.
Qed.

Lemma get_averaged (fd : funding_data) (t : pyval) (es : list entry) :
  get pyval_eqb t fd = Some es ->
  get pyval_eqb t (map averaged fd) = Some (average_rate py_sum es).
Proof.
  induction fd as [|[t' es'] rest IH]; simpl; [discriminate|].
  destruct (pyval_eqb t t'); [|assumption].
  now intros [= ->].
Qed.

End Aggregator.

(** C2: for every ticker of a funding-data dictionary, the average stored
    for it and listed in the ranked rates is the sum of the hourly
    percentages of its entries divided by 3, for any number of entries. *)
Theorem average_is_sum_over_three (py_sum : list F64.float -> F64.float)
    (fd : funding_data) (ticker : pyval) (entries : list entry) :
  NoDup (keys fd) ->
  get pyval_eqb ticker fd = Some entries ->
  get pyval_eqb ticker (average_rates py_sum fd)
  = Some (F64.div (py_sum (map funding_rate entries)) (F64.of_Z 3))
  /\ In (ticker, F64.div (py_sum (map funding_rate entries)) (F64.of_Z 3))
        (sorted_rates py_sum fd).
Proof.
  intros Hnd Hget.
  assert (H : get pyval_eqb ticker (average_rates py_sum fd)
              = Some (average_rate py_sum entries)).
  { rewrite average_rates_map by assumption. now apply get_averaged. }
  split; [exact H|].
  apply (Permutation_in _ (Permutation_sym (sorted_reverse_perm snd _))).
  apply get_in in H. exact H.
Qed.

(** A ticker with two entries, of 3.0 and 6.0 percent an hour: the average
    is 9.0 / 3 = 3.0, not 9.0 / 2. *)
Lemma average_is_sum_over_three_holds :
  let entries := [ {| e_timestamp := Some 100%Z; funding_rate := F64.of_Z 3 |};
                   {| e_timestamp := Some 200%Z; funding_rate := F64.of_Z 6 |} ]
  in
  let fd := [(PStr "BTC-PERP", entries)] in
  NoDup (keys fd)
  /\ get pyval_eqb (PStr "BTC-PERP") fd = Some entries
  /\ get pyval_eqb (PStr "BTC-PERP") (average_rates Ref.sum fd)
     = Some (F64.of_Z 3).
Proof.
  intros entries fd.
  assert (Hnd : NoDup (keys fd)) by (repeat constructor; intros []).
  assert (Hget : get pyval_eqb (PStr "BTC-PERP") fd = Some entries)
    by reflexivity.
  split; [exact Hnd|]. split; [exact Hget|].
  exact (proj1 (average_is_sum_over_three Ref.sum fd (PStr "BTC-PERP")
                  entries Hnd Hget)).
Defined.

Lemma StronglySorted_weaken {A : Type} (R S : A -> A -> Prop) (l : list A) :
  (forall a b, R a b -> S a b) -> StronglySorted R l -> StronglySorted S l.
Proof.
  intros HRS H. induction H as [|a l Hl IH Ha]; constructor.
  - assumption.
  - eapply Forall_impl; [|exact Ha]. intros b. apply HRS.
Qed.

(** C7, as stated, fails: a rate string that reads as NaN gives its ticker
    the average NaN, which is neither below nor above any rate, and the
    ranking is then not descending.  Three products in one snapshot, the
    second with the rate string nan: the ranking keeps them in the order
    100.0, NaN, 200.0. *)
Lemma nan_average_breaks_descending :
  let s := {| timestamp := Some 100%Z;
              funding_rates := Some [("1", "72000000000000000000");
                                     ("2", "nan");
                                     ("3", "144000000000000000000")] |} in
  exists fd,
    process_funding_rates Ref.int Ref.float [s] empty_state
    = (Ok fd, empty_state)
    /\ sorted_rates Ref.sum fd
       = [(PStr "Unknown(1)", F64.of_Z 100);
          (PStr "Unknown(2)", F64.nan);
          (PStr "Unknown(3)", F64.of_Z 200)]
    /\ ~ descending (sorted_rates Ref.sum fd).
Proof.
  intros s. eexists. split; [vm_compute; reflexivity|].
  split; [vm_compute; reflexivity|].
  intros H. unfold descending in H.
  inversion H as [|a l _ Hall]; subst.
  inversion Hall as [|b l' _ Hrest]; subst.
  inversion Hrest as [|c l'' Hac _]; subst.
  vm_compute in Hac. discriminate.
Qed.

(** C7, amended: when no average is NaN, the ranking is a rearrangement of
    the averages in which no row has a rate below that of a later row
    (every row's rate is at least the rate of each row after it), and the
    tickers that share a rate stand in the ranking in the order in which
    the funding-data dictionary lists them. *)
Theorem sorted_rates_descending_stable (py_sum : list F64.float -> F64.float)
    (fd : funding_data) :
  NoDup (keys fd) ->
  Forall (fun p => F64.is_nan (snd p) = false) (average_rates py_sum fd) ->
  Permutation (sorted_rates py_sum fd) (average_rates py_sum fd)
  /\ keys (average_rates py_sum fd) = keys fd
  /\ descending (sorted_rates py_sum fd)
  /\ StronglySorted (fun a b => F64.leb (snd b) (snd a) = true)
       (sorted_rates py_sum fd)
  /\ (forall x, filter (same_rate x) (sorted_rates py_sum fd)
                = filter (same_rate x) (average_rates py_sum fd)).
Proof.
  intros Hnd Hnum. unfold sorted_rates.
  pose proof (sorted_reverse_sorted snd _ Hnum) as Hsorted.
  split; [apply sorted_reverse_perm|].
  split; [now apply average_rates_keys|].
  split; [|split].
  - unfold descending. eapply StronglySorted_weaken; [|exact Hsorted].
    intros a b. apply F64_leb_not_ltb.
  - exact Hsorted.
  - intros x. apply sorted_reverse_stable.
Qed.

(** Four tickers with the averages 1.0, 2.0, 1.0 and 2.0: the ranking lists
    the two at 2.0 first and keeps each tie in the order of the input. *)
Lemma sorted_rates_descending_stable_holds :
  let one := [ {| e_timestamp := Some 100%Z; funding_rate := F64.of_Z 3 |} ] in
  let two := [ {| e_timestamp := Some 100%Z; funding_rate := F64.of_Z 6 |} ] in
  let fd := [(PStr "A", one); (PStr "B", two); (PStr "C", one);
             (PStr "D", two)] in
  NoDup (keys fd)
  /\ Forall (fun p => F64.is_nan (snd p) = false) (average_rates Ref.sum fd)
  /\ keys (sorted_rates Ref.sum fd) = [PStr "B"; PStr "D"; PStr "A"; PStr "C"]
  /\ descending (sorted_rates Ref.sum fd).
Proof.
  intros one two fd.
  assert (Hnd : NoDup (keys fd)).
  { repeat constructor; simpl; intros H;
      repeat (destruct H as [H|H]; try discriminate H); exact H. }
  assert (Hnum : Forall (fun p => F64.is_nan (snd p) = false)
                        (average_rates Ref.sum fd))
    by (repeat constructor).
  split; [exact Hnd|]. split; [exact Hnum|]. split; [reflexivity|].
  exact (proj1 (proj2 (proj2
           (sorted_rates_descending_stable Ref.sum fd Hnd Hnum)))).
Defined.

(* ================================================================== *)
(** ** The run without snapshots *)

Lemma update_product_mapping_file (reply : result (list jobject)) (st : state) :
  vertexrates_txt (snd (update_product_mapping reply st)) = vertexrates_txt st.
Proof.
  unfold update_product_mapping, try_except, bind, lift, read_mapping.
  destruct reply as [symbols|e]; simpl.
  - destruct (dict_comprehension symbols []) as [m|e]; simpl.
    + destruct (set_eqb (keys m) (keys (PRODUCT_MAPPING st))); reflexivity.
    + destruct (is_RequestException e); reflexivity.
  - destruct (is_RequestException e); reflexivity.
Qed.

Lemma get_historical_funding_rates_file (post : payload -> result archive_body)
    (t : Z) (ids : list pyval) (cnt gran : Z) (st : state) :
  vertexrates_txt (snd (get_historical_funding_rates post t ids cnt gran st))
  = vertexrates_txt st.
Proof.
  unfold get_historical_funding_rates, try_except, bind, lift, ret.
  destruct (post (archive_payload ids cnt gran t)) as [data|e]; simpl.
  - reflexivity.
  - destruct (is_RequestException e); reflexivity.
Qed.

Lemma fetch_batches_all_empty (w : world) (batches : list (list pyval))
    (i : nat) (all_snapshots : list snapshot) (st : state) :
  (forall j batch s,
      nth_error batches j = Some batch ->
      fst (get_historical_funding_rates
             (archive w (i + j)) (clock w (i + j)) batch 72 3600 s) = Ok []) ->
  exists st',
    fetch_batches w batches i all_snapshots st = (Ok all_snapshots, st')
    /\ vertexrates_txt st' = vertexrates_txt st.
Proof.
  revert i st. induction batches as [|batch rest IH]; intros i st Hall; simpl.
  - exists st. split; reflexivity.
  - unfold bind at 1. simpl. unfold bind at 1.
    set (st1 := {| PRODUCT_MAPPING := PRODUCT_MAPPING st;
                   stdout := stdout st ++ [LogFetching batch];
                   archive_requests := archive_requests st;
                   vertexrates_txt := vertexrates_txt st |}).
    pose proof (Hall 0 batch st1 eq_refl) as Hfetch.
    pose proof (get_historical_funding_rates_file
                  (archive w i) (clock w i) batch 72 3600 st1) as Hfile.
    rewrite Nat.add_0_r in Hfetch.
    destruct (get_historical_funding_rates
                (archive w i) (clock w i) batch 72 3600 st1)
      as [r st2].
    simpl in Hfetch, Hfile. subst r.
    destruct (IH (S i) st2) as [st' [Hrun Hkeep]].
    + intros j b s Hj. rewrite Nat.add_succ_l, <- Nat.add_succ_r.
      now apply Hall.
    + exists st'. split; [exact Hrun|]. now rewrite Hkeep, Hfile.
Qed.

Lemma bind_ok {A B : Type} (m : M A) (f : A -> M B) (st : state) (a : A)
    (st' : state) :
  m st = (Ok a, st') -> bind m f st = f a st'.
Proof. intros H. unfold bind. now rewrite H. Qed.

Lemma print_ok (l : logline) (st : state) :
  print l st
  = (Ok tt, {| PRODUCT_MAPPING := PRODUCT_MAPPING st;
               stdout := stdout st ++ [l];
               archive_requests := archive_requests st;
               vertexrates_txt := vertexrates_txt st |}).
Proof. reflexivity. Qed.

(** C8: in a run whose Mapping Loader returns, when the fetch of every
    batch of the product ids returns an empty sequence of snapshots, [main]
    returns after printing that no snapshots were retrieved, which is the
    last thing it prints, and the report file is what it was before the
    run: nothing is written. *)
Theorem no_snapshots_no_report (py_int : string -> option Z)
    (py_float : string -> option F64.float)
    (py_sum : list F64.float -> F64.float)
    (w : world) (st : state) (batches : list (list pyval)) :
  fst (update_product_mapping (assets w) st) = Ok tt ->
  chunk_list
    (keys (PRODUCT_MAPPING (snd (update_product_mapping (assets w) st)))) 27
  = Ok batches ->
  (forall i batch s,
      nth_error batches i = Some batch ->
      fst (get_historical_funding_rates
             (archive w i) (clock w i) batch 72 3600 s) = Ok []) ->
  exists st',
    main py_int py_float py_sum w st = (Ok tt, st')
    /\ (exists out, stdout st' = out ++ [LogNoSnapshots])
    /\ vertexrates_txt st' = vertexrates_txt st.
Proof.
  intros Hload Hchunks Hempty.
  pose proof (update_product_mapping_file (assets w) st) as Hfile.
  destruct (update_product_mapping (assets w) st) as [r st1] eqn:Hupd.
  simpl in Hload, Hchunks, Hfile. subst r.
  unfold main.
  rewrite (bind_ok _ _ _ _ _ Hupd).
  rewrite (bind_ok read_mapping _ st1 (PRODUCT_MAPPING st1) st1 eq_refl).
  cbv zeta.
  rewrite (bind_ok _ _ _ _ _ (print_ok _ _)).
  rewrite (bind_ok _ _ _ _ _ (print_ok _ _)).
  change (Nat.div 2000 72) with 27.
  match goal with
  | |- context [bind (lift _) _ ?s] =>
      rewrite (bind_ok (lift _) _ s batches s);
      [| unfold lift; simpl PRODUCT_MAPPING; now rewrite Hchunks];
      destruct (fetch_batches_all_empty w batches 0 [] s Hempty)
        as [st' [Hrun Hkeep]]
  end.
  rewrite (bind_ok _ _ _ _ _ Hrun).
  rewrite print_ok.
  eexists. split; [reflexivity|]. simpl. split.
  - eexists. reflexivity.
  - rewrite Hkeep. simpl. exact Hfile.
Qed.

(** In the world of this run the archive refuses every request. *)
Lemma no_snapshots_no_report_holds :
  let w := {| assets := Ok [[("product_id", PInt 2);
                             ("ticker_id", PStr "BTC-PERP")]];
              archive := fun _ _ => Raise (RequestException "503");
              clock := fun _ => 3661%Z;
              open_report := Ok tt;

              write_line := fun _ => Ok tt;

              close_report := Ok tt |} in
  fst (update_product_mapping (assets w) empty_state) = Ok tt
  /\ chunk_list
       (keys (PRODUCT_MAPPING
                (snd (update_product_mapping (assets w) empty_state)))) 27
     = Ok [[PInt 2]]
  /\ (forall i batch s,
        nth_error [[PInt 2]] i = Some batch ->
        fst (get_historical_funding_rates
               (archive w i) (clock w i) batch 72 3600 s) = Ok [])
  /\ exists st',
       main Ref.int Ref.float Ref.sum w empty_state = (Ok tt, st')
       /\ (exists out, stdout st' = out ++ [LogNoSnapshots])
       /\ vertexrates_txt st' = None.
Proof.
  intros w.
  assert (Hload : fst (update_product_mapping (assets w) empty_state) = Ok tt)
    by reflexivity.
  assert (Hchunks : chunk_list
            (keys (PRODUCT_MAPPING
                     (snd (update_product_mapping (assets w) empty_state)))) 27
          = Ok [[PInt 2]]) by reflexivity.
  assert (Hempty : forall i batch s,
            nth_error [[PInt 2]] i = Some batch ->
            fst (get_historical_funding_rates
                   (archive w i) (clock w i) batch 72 3600 s) = Ok [])
    by (intros i batch s _; reflexivity).
  split; [exact Hload|]. split; [exact Hchunks|]. split; [exact Hempty|].
  exact (no_snapshots_no_report Ref.int Ref.float Ref.sum w empty_state
           [[PInt 2]] Hload Hchunks Hempty).
Defined.

(* ================================================================== *)
(** ** Order of the tickers in the funding data *)

Lemma mem_existsb {V : Type} (k : pyval) (d : list (pyval * V)) :
  mem pyval_eqb k d = existsb (pyval_eqb k) (keys d).
Proof.
  unfold mem. induction d as [|[k' v] t IH]; simpl.
  - reflexivity.
  - destruct (pyval_eqb k k'); [reflexivity | exact IH].
Qed.

Lemma keys_append_entry (t : pyval) (e : entry) (fd : funding_data) :
  keys (append_entry t e fd) = note_ticker (keys fd) t.
Proof.
  unfold append_entry, note_ticker. now rewrite keys_set, mem_existsb.
Qed.

Section KeyOrder.

Variable py_int : string -> option Z.
Variable py_float : string -> option F64.float.
Variable mapping : list (pyval * pyval).

Let tick (kv : string * string) : pyval := ticker_of py_int mapping (fst kv).

Lemma process_snapshot_keys (s : snapshot) (fd fd' : funding_data) :
  process_snapshot py_int py_float mapping fd s = Ok fd' ->
  keys fd' = fold_left note_ticker (map tick (items_of s)) (keys fd).
Proof.
  unfold process_snapshot. fold (items_of s).
  generalize (items_of s) as items. intros items. revert fd.
  induction items as [|kv items IH]; intros fd; simpl.
  - now intros [= ->].
  - rewrite process_pair_appends. simpl. intros H.
    rewrite (IH _ H), keys_append_entry. reflexivity.
Qed.

Lemma process_snapshots_keys (snapshots : list snapshot)
    (fd fd' : funding_data) :
  rfold (process_snapshot py_int py_float mapping) snapshots fd = Ok fd' ->
  keys fd'
  = fold_left note_ticker (tickers_met py_int mapping snapshots) (keys fd).
Proof.
  revert fd. induction snapshots as [|s rest IH]; intros fd; simpl.
  - now intros [= ->].
  - destruct (process_snapshot py_int py_float mapping fd s) as [fd1|e] eqn:E;
      simpl; [|discriminate].
    intros H. rewrite (IH _ H), fold_left_app.
    now rewrite (process_snapshot_keys _ _ _ E).
Qed.

End KeyOrder.

(** X9: the funding data list the tickers in the order of their first
    appearance in the snapshots. *)
Lemma funding_data_keys_first_appearance (py_int : string -> option Z)
    (py_float : string -> option F64.float)
    (snapshots : list snapshot) (st : state) (fd : funding_data) :
  process_funding_rates py_int py_float snapshots st = (Ok fd, st) ->
  keys fd
  = first_appearances (tickers_met py_int (PRODUCT_MAPPING st) snapshots).
Proof.
  unfold process_funding_rates, bind, read_mapping, lift. intros H.
  destruct (rfold (process_snapshot py_int py_float (PRODUCT_MAPPING st))
                  snapshots []) as [fd0|e] eqn:E; [|discriminate].
  injection H as <-.
  exact (process_snapshots_keys _ _ _ _ _ _ E).
Qed.

(* ================================================================== *)
(** * Further properties *)

(** ** Mapping Loader: what a response does to the stored mapping *)

Lemma dict_comprehension_app (a b : list jobject) (acc : list (pyval * pyval)) :
  dict_comprehension (a ++ b) acc
  = rbind (dict_comprehension a acc) (dict_comprehension b).
Proof.
  revert acc. induction a as [|item a IH]; intros acc; simpl.
  - reflexivity.
  - destruct (subscript String.eqb id item "product_id") as [k|e]; simpl;
      [|reflexivity].
    destruct (subscript String.eqb id item "ticker_id") as [v|e]; simpl;
      [|reflexivity].
    apply IH.
Qed.

Lemma dict_comprehension_keeps (symbols : list jobject)
    (acc m : list (pyval * pyval)) (k : pyval) :
  dict_comprehension symbols acc = Ok m ->
  (forall item, In item symbols ->
     get String.eqb "product_id" item <> Some k) ->
  get pyval_eqb k m = get pyval_eqb k acc.
Proof.
  revert acc. induction symbols as [|item rest IH]; intros acc; simpl.
  - now intros [= ->].
  - unfold subscript.
    destruct (get String.eqb "product_id" item) as [k'|] eqn:Ek; simpl;
      [|discriminate].
    destruct (get String.eqb "ticker_id" item) as [v'|]; simpl;
      [|discriminate].
    intros H Hother. rewrite (IH _ H) by (intros it Hit; apply Hother; now right).
    apply get_set_other. intros ->. apply (Hother item); [now left | exact Ek].
Qed.

Lemma dict_comprehension_nodup (symbols : list jobject)
    (acc m : list (pyval * pyval)) :
  NoDup (keys acc) -> dict_comprehension symbols acc = Ok m -> NoDup (keys m).
Proof.
  revert acc. induction symbols as [|item rest IH]; intros acc Hnd; simpl.
  - now intros [= <-].
  - destruct (subscript String.eqb id item "product_id") as [k|e]; simpl;
      [|discriminate].
    destruct (subscript String.eqb id item "ticker_id") as [v|e]; simpl;
      [|discriminate].
    apply IH. now apply NoDup_keys_set.
Qed.

(** After any call of the loader the stored mapping is the one stored
    before or the one built from the response. *)
Lemma update_product_mapping_cases (reply : result (list jobject)) (st : state) :
  PRODUCT_MAPPING (snd (update_product_mapping reply st)) = PRODUCT_MAPPING st
  \/ exists symbols,
       reply = Ok symbols
       /\ dict_comprehension symbols []
          = Ok (PRODUCT_MAPPING (snd (update_product_mapping reply st))).
Proof.
  unfold update_product_mapping, try_except, bind, lift, read_mapping.
  destruct reply as [symbols|e]; simpl.
  - destruct (dict_comprehension symbols []) as [m|e] eqn:E; simpl.
    + destruct (set_eqb (keys m) (keys (PRODUCT_MAPPING st))); simpl.
      * now left.
      * right. exists symbols. auto.
    + destruct (is_RequestException e); now left.
  - destruct (is_RequestException e); now left.
Qed.

(** X1: when two records of a response carry the same product id, the
    mapping built from the response gives the id the ticker of the last of
    them. *)
Theorem last_record_of_an_id_wins (before after : list jobject)
    (item : jobject) (k v : pyval) (m : list (pyval * pyval)) :
  dict_comprehension (before ++ item :: after) [] = Ok m ->
  get String.eqb "product_id" item = Some k ->
  get String.eqb "ticker_id" item = Some v ->
  (forall later, In later after ->
     get String.eqb "product_id" later <> Some k) ->
  get pyval_eqb k m = Some v.
Proof.
  intros Hm Hk Hv Hafter. rewrite dict_comprehension_app in Hm.
  destruct (dict_comprehension before []) as [m0|e]; simpl in Hm;
    [|discriminate].
  unfold subscript in Hm. rewrite Hk, Hv in Hm. simpl in Hm.
  rewrite (dict_comprehension_keeps _ _ _ _ Hm Hafter).
  apply get_set_same.
Qed.

(** Product 2 listed twice: the second ticker is the one kept. *)
Lemma last_record_of_an_id_wins_holds :
  let first := [("product_id", PInt 2); ("ticker_id", PStr "BTC-PERP")] in
  let item := [("product_id", PInt 2); ("ticker_id", PStr "BTC-USD")] in
  let other := [("product_id", PInt 4); ("ticker_id", PStr "ETH-PERP")] in
  let m := [(PInt 2, PStr "BTC-USD"); (PInt 4, PStr "ETH-PERP")] in
  dict_comprehension ([first] ++ item :: [other]) [] = Ok m
  /\ get String.eqb "product_id" item = Some (PInt 2)
  /\ get String.eqb "ticker_id" item = Some (PStr "BTC-USD")
  /\ (forall later, In later [other] ->
        get String.eqb "product_id" later <> Some (PInt 2))
  /\ get pyval_eqb (PInt 2) m = Some (PStr "BTC-USD").
Proof.
  intros first item other m.
  assert (Hm : dict_comprehension ([first] ++ item :: [other]) [] = Ok m)
    by reflexivity.
  assert (Hk : get String.eqb "product_id" item = Some (PInt 2))
    by reflexivity.
  assert (Hv : get String.eqb "ticker_id" item = Some (PStr "BTC-USD"))
    by reflexivity.
  assert (Hafter : forall later, In later [other] ->
            get String.eqb "product_id" later <> Some (PInt 2)).
  { intros later [<-|[]]. simpl. discriminate. }
  split; [exact Hm|]. split; [exact Hk|]. split; [exact Hv|].
  split; [exact Hafter|].
  exact (last_record_of_an_id_wins [first] [other] item (PInt 2)
           (PStr "BTC-USD") m Hm Hk Hv Hafter).
Defined.

(** X2: the loader keeps the stored mapping a dictionary: if no product id
    is a key twice before the call, none is after it, whatever the
    response. *)
Theorem loader_keeps_ids_distinct (reply : result (list jobject)) (st : state) :
  NoDup (keys (PRODUCT_MAPPING st)) ->
  NoDup (keys (PRODUCT_MAPPING (snd (update_product_mapping reply st)))).
Proof.
  intros Hnd.
  destruct (update_product_mapping_cases reply st) as [E|[symbols [_ E]]].
  - now rewrite E.
  - eapply dict_comprehension_nodup; [|exact E]. constructor.
Qed.

(** A response that lists product 2 twice, on a mapping of one product. *)
Lemma loader_keeps_ids_distinct_holds :
  let reply := Ok [[("product_id", PInt 2); ("ticker_id", PStr "BTC-PERP")];
                   [("product_id", PInt 2); ("ticker_id", PStr "BTC-USD")]] in
  let st := {| PRODUCT_MAPPING := [(PInt 9, PStr "OLD-PERP")];
               stdout := [];
               archive_requests := [];
               vertexrates_txt := None |} in
  NoDup (keys (PRODUCT_MAPPING st))
  /\ NoDup (keys (PRODUCT_MAPPING (snd (update_product_mapping reply st)))).
Proof.
  intros reply st.
  assert (Hnd : NoDup (keys (PRODUCT_MAPPING st)))
    by (repeat constructor; intros []).
  split; [exact Hnd|].
  exact (loader_keeps_ids_distinct reply st Hnd).
Defined.

Lemma set_eqb_refl (a : list pyval) : set_eqb a a = true.
Proof. apply set_eqb_spec. intros k. reflexivity. Qed.

(** X3: a second call of the loader with the same well-formed response
    changes nothing in the stored mapping and prints that no new mapping was
    found, whether the first call replaced the mapping or not. *)
Theorem loader_second_call_keeps_mapping (symbols : list jobject)
    (new_mapping : list (pyval * pyval)) (st : state) :
  dict_comprehension symbols [] = Ok new_mapping ->
  update_product_mapping (Ok symbols)
    (snd (update_product_mapping (Ok symbols) st))
  = (Ok tt,
     logged LogNoNewMapping (snd (update_product_mapping (Ok symbols) st))).
Proof.
  intros H. rewrite (update_product_mapping_built _ _ st H).
  destruct (set_eqb (keys new_mapping) (keys (PRODUCT_MAPPING st))) eqn:E;
    simpl snd; rewrite (update_product_mapping_built _ _ _ H); simpl.
  - now rewrite E.
  - now rewrite set_eqb_refl.
Qed.

(** The first call stores the mapping of the response, the second keeps
    it. *)
Lemma loader_second_call_keeps_mapping_holds :
  let symbols := [[("product_id", PInt 2); ("ticker_id", PStr "BTC-PERP")]] in
  dict_comprehension symbols [] = Ok [(PInt 2, PStr "BTC-PERP")]
  /\ update_product_mapping (Ok symbols)
       (snd (update_product_mapping (Ok symbols) empty_state))
     = (Ok tt,
        {| PRODUCT_MAPPING := [(PInt 2, PStr "BTC-PERP")];
           stdout := [LogMappingUpdated; LogNoNewMapping];
           archive_requests := [];
           vertexrates_txt := None |}).
Proof.
  intros symbols.
  assert (H : dict_comprehension symbols [] = Ok [(PInt 2, PStr "BTC-PERP")])
    by reflexivity.
  split; [exact H|].
  exact (loader_second_call_keeps_mapping symbols _ empty_state H).
Defined.

(* ================================================================== *)
(** ** Batch Planner: number and size of the batches *)

Lemma range_from_length (n fuel i stop : nat) :
  1 <= n -> stop <= i + fuel ->
  stop <= i + List.length (range_from fuel i stop n) * n
  /\ (i < stop -> i + List.length (range_from fuel i stop n) * n < stop + n).
Proof.
  intros Hn. revert i. induction fuel as [|fuel IH]; intros i Hfuel; simpl.
  - lia.
  - destruct (Nat.ltb_spec i stop) as [Hlt|Hge]; simpl; [|lia].
    destruct (IH (i + n)) as [H1 H2]; [lia|].
    destruct (Nat.lt_ge_cases (i + n) stop) as [Hnext|Hlast].
    + specialize (H2 Hnext). lia.
    + destruct fuel as [|fuel']; simpl in *; [lia|].
      destruct (Nat.ltb_spec (i + n) stop); [lia|]. simpl. lia.
Qed.

Lemma chunk_in_bounds {A : Type} (lst : list A) (n : nat) (chunks : list (list A))
    (c : list A) :
  1 <= n -> chunk_list lst n = Ok chunks -> In c chunks ->
  1 <= List.length c <= n.
Proof.
  intros Hn Hc Hin. unfold chunk_list, range in Hc.
  destruct n as [|m]; [lia|]. simpl in Hc. injection Hc as <-.
  apply in_map_iff in Hin as [i [<- Hi]].
  apply In_nth_error in Hi as [k Hk].
  assert (Hb : i = 0 + k * S m /\ i < List.length lst)
    by (eapply range_from_nth; eassumption).
  unfold slice. rewrite length_firstn, length_skipn. lia.
Qed.

(** X4: for a batch size n of at least 1 the planner returns the least
    number of batches that can hold the ids: the length of the input
    divided by n, rounded up. *)
Theorem chunk_list_count {A : Type} (lst : list A) (n : nat)
    (chunks : list (list A)) :
  1 <= n -> chunk_list lst n = Ok chunks ->
  List.length chunks = (List.length lst + n - 1) / n.
Proof.
  intros Hn Hc. unfold chunk_list, range in Hc.
  destruct n as [|m]; [lia|]. simpl in Hc. injection Hc as <-.
  rewrite length_map.
  destruct (range_from_length (S m) (List.length lst) 0 (List.length lst))
    as [H1 H2]; [lia | lia |].
  set (L := List.length (range_from (List.length lst) 0 (List.length lst) (S m)))
    in *.
  destruct (Nat.eq_dec (List.length lst) 0) as [E|E].
  - rewrite E in *. simpl in H1.
    assert (L = 0).
    { unfold L. rewrite E. reflexivity. }
    rewrite H. symmetry. apply Nat.div_small. lia.
  - apply Nat.div_unique with (List.length lst + S m - 1 - S m * L); lia.
Qed.

(** Seven ids in batches of three: three batches. *)
Lemma chunk_list_count_holds :
  1 <= 3
  /\ chunk_list [1; 2; 3; 4; 5; 6; 7] 3 = Ok [[1; 2; 3]; [4; 5; 6]; [7]]
  /\ List.length [[1; 2; 3]; [4; 5; 6]; [7]] = (7 + 3 - 1) / 3.
Proof.
  assert (Hn : 1 <= 3) by lia.
  assert (Hc : chunk_list [1; 2; 3; 4; 5; 6; 7] 3
               = Ok [[1; 2; 3]; [4; 5; 6]; [7]]) by reflexivity.
  split; [exact Hn|]. split; [exact Hc|].
  exact (chunk_list_count [1; 2; 3; 4; 5; 6; 7] 3 _ Hn Hc).
Defined.

(** X5: with the batch size [2000 // count] that [main] computes, for any
    count of snapshots between 1 and 2000 the planner returns batches, none
    of them empty, and the count times the number of ids of a batch never
    exceeds 2000. *)
Theorem batches_fit_server_limit (ids : list pyval) (cnt : nat) :
  1 <= cnt -> cnt <= 2000 ->
  exists batches,
    chunk_list ids (Nat.div 2000 cnt) = Ok batches
    /\ (forall b, In b batches ->
          1 <= List.length b /\ cnt * List.length b <= 2000).
Proof.
  intros H1 H2.
  assert (Hsize : 1 <= Nat.div 2000 cnt)
    by (apply Nat.div_le_lower_bound; lia).
  assert (Hfit : cnt * Nat.div 2000 cnt <= 2000)
    by (apply Nat.Div0.mul_div_le).
  destruct (chunk_list ids (Nat.div 2000 cnt)) as [batches|e] eqn:E.
  - exists batches. split; [reflexivity|]. intros b Hb.
    pose proof (chunk_in_bounds _ _ _ _ Hsize E Hb) as Hlen.
    split; [lia|].
    apply Nat.le_trans with (cnt * Nat.div 2000 cnt); [|exact Hfit].
    apply Nat.mul_le_mono_l. lia.
  - exfalso. unfold chunk_list, range in E.
    destruct (Nat.div 2000 cnt); [lia | discriminate].
Qed.

(** The count 72 of [main] and thirty ids: two batches. *)
Lemma batches_fit_server_limit_holds :
  1 <= 72 /\ 72 <= 2000
  /\ exists batches,
       chunk_list (map (fun n => PInt (Z.of_nat n)) (seq 1 30)) (Nat.div 2000 72)
       = Ok batches
       /\ (forall b, In b batches ->
             1 <= List.length b /\ 72 * List.length b <= 2000).
Proof.
  assert (H1 : 1 <= 72) by lia.
  assert (H2 : 72 <= 2000) by lia.
  split; [exact H1|]. split; [exact H2|].
  exact (batches_fit_server_limit
           (map (fun n => PInt (Z.of_nat n)) (seq 1 30)) 72 H1 H2).
Defined.

(* ================================================================== *)
(** ** Snapshot Fetcher: where the cutoff lies *)

(** X6: the cutoff of a request is 5 seconds after a full hour, at most 5
    seconds after the current time and less than an hour (at most 3594
    seconds) before it; it is in the future exactly when the current time
    is within the first 5 seconds of an hour. *)
Theorem cutoff_within_the_hour (ids : list pyval) (cnt gran t : Z) :
  let cutoff := max_time (market_interval (archive_payload ids cnt gran t)) in
  ((cutoff - 5) mod 3600 = 0
   /\ t - 3594 <= cutoff <= t + 5
   /\ (t < cutoff <-> t mod 3600 < 5))%Z.
Proof.
  simpl. unfold rounded_time.
  pose proof (Z.mod_pos_bound t 3600 ltac:(lia)) as Hb.
  pose proof (Z.div_mod t 3600 ltac:(lia)) as Hd.
  split; [|lia].
  replace (t - t mod 3600 + 5 - 5)%Z with (t / 3600 * 3600)%Z by lia.
  apply Z.mod_mul. lia.
Qed.

(* ================================================================== *)
(** ** The batch loop of [main] *)

Lemma get_historical_funding_rates_answered
    (post : payload -> result archive_body) (t : Z) (ids : list pyval)
    (cnt gran : Z) (st : state) :
  answered (post (archive_payload ids cnt gran t)) = true ->
  exists st',
    get_historical_funding_rates post t ids cnt gran st
    = (Ok (snapshots_of (post (archive_payload ids cnt gran t))), st')
    /\ PRODUCT_MAPPING st' = PRODUCT_MAPPING st
    /\ vertexrates_txt st' = vertexrates_txt st.
Proof.
  unfold get_historical_funding_rates, try_except, bind, lift, ret, answered,
    snapshots_of, record_request.
  destruct (post (archive_payload ids cnt gran t)) as [data|e]; simpl.
  - intros _. eexists. split; [reflexivity|]. simpl. auto.
  - intros ->. eexists. split; [reflexivity|]. simpl. auto.
Qed.

Lemma fetch_batches_answered (w : world) (batches : list (list pyval))
    (i : nat) (all_snapshots : list snapshot) (st : state) :
  forallb answered (batch_replies w batches i) = true ->
  exists st',
    fetch_batches w batches i all_snapshots st
    = (Ok (all_snapshots ++ flat_map snapshots_of (batch_replies w batches i)),
       st')
    /\ PRODUCT_MAPPING st' = PRODUCT_MAPPING st
    /\ vertexrates_txt st' = vertexrates_txt st.
Proof.
  revert i all_snapshots st.
  induction batches as [|batch rest IH]; intros i all_snapshots st; simpl.
  - intros _. exists st. rewrite app_nil_r. auto.
  - intros H. apply andb_true_iff in H as [Hfirst Hrest].
    rewrite (bind_ok _ _ _ _ _ (print_ok _ _)).
    match goal with
    | |- context [bind (get_historical_funding_rates _ _ _ _ _) _ ?s] =>
        destruct (get_historical_funding_rates_answered
                    (archive w i) (clock w i) batch 72 3600 s Hfirst)
          as [st1 [Hcall [Hmap1 Hfile1]]]
    end.
    rewrite (bind_ok _ _ _ _ _ Hcall).
    set (got := snapshots_of
                  (archive w i (archive_payload batch 72 3600 (clock w i)))).
    destruct (IH (S i)
                 (match got with
                  | [] => all_snapshots
                  | _ :: _ => all_snapshots ++ got
                  end) st1 Hrest) as [st' [Hrun [Hmap Hfile]]].
    exists st'. split; [|split].
    + rewrite Hrun. f_equal. f_equal. rewrite app_assoc. f_equal.
      destruct got; [now rewrite app_nil_r | reflexivity].
    + rewrite Hmap, Hmap1. reflexivity.
    + rewrite Hfile, Hfile1. reflexivity.
Qed.

(** X7: when the archive answers every request of the batch loop with a
    body or with a request error, the loop returns the snapshots of the
    answered batches one after the other in batch order, a failed batch
    adding none, and leaves the stored mapping and the report file as they
    were. *)
Theorem failed_batches_are_skipped (w : world) (batches : list (list pyval))
    (st : state) :
  forallb answered (batch_replies w batches 0) = true ->
  exists st',
    fetch_batches w batches 0 [] st
    = (Ok (flat_map snapshots_of (batch_replies w batches 0)), st')
    /\ PRODUCT_MAPPING st' = PRODUCT_MAPPING st
    /\ vertexrates_txt st' = vertexrates_txt st.
Proof.
  intros H. exact (fetch_batches_answered w batches 0 [] st H).
Qed.

(** Three batches; the archive fails on the second request. *)
Lemma failed_batches_are_skipped_holds :
  let s1 := {| timestamp := Some 100%Z; funding_rates := Some [("1", "5")] |} in
  let s3 := {| timestamp := Some 100%Z; funding_rates := Some [("3", "7")] |} in
  let w := {| assets := Ok [];
              archive := fun i _ =>
                match i with
                | 0 => Ok {| snapshots_field := Some [s1] |}
                | 1 => Raise (RequestException "503")
                | _ => Ok {| snapshots_field := Some [s3] |}
                end;
              clock := fun _ => 3661%Z;
              open_report := Ok tt;

              write_line := fun _ => Ok tt;

              close_report := Ok tt |} in
  let batches := [[PInt 1]; [PInt 2]; [PInt 3]] in
  forallb answered (batch_replies w batches 0) = true
  /\ exists st',
       fetch_batches w batches 0 [] empty_state = (Ok [s1; s3], st')
       /\ PRODUCT_MAPPING st' = []
       /\ vertexrates_txt st' = None.
Proof.
  intros s1 s3 w batches.
  assert (H : forallb answered (batch_replies w batches 0) = true)
    by reflexivity.
  split; [exact H|].
  exact (failed_batches_are_skipped w batches empty_state H).
Defined.

(* ================================================================== *)
(** ** Rate Processor: what the funding data hold *)

Lemma entries_at_append (t t' : pyval) (e : entry) (fd : funding_data) :
  entries_at (append_entry t' e fd) t
  = entries_at fd t ++ (if pyval_eqb t t' then [e] else []).
Proof.
  unfold entries_at, append_entry.
  destruct (pyval_eqb t t') eqn:E.
  - apply pyval_eqb_eq in E. subst t'. now rewrite get_set_same.
  - apply pyval_eqb_neq in E. rewrite get_set_other by assumption.
    now rewrite app_nil_r.
Qed.

Section EntryOrder.

Variable py_int : string -> option Z.
Variable py_float : string -> option F64.float.
Variable mapping : list (pyval * pyval).

Let entries_of_pair (ts : option Z) (t : pyval) (kv : string * string)
  : list entry :=
  if pyval_eqb t (ticker_of py_int mapping (fst kv))
  then [new_entry ts (raw_value_of py_float (snd kv))]
  else [].

Lemma process_snapshot_entries (s : snapshot) (fd fd' : funding_data)
    (t : pyval) :
  process_snapshot py_int py_float mapping fd s = Ok fd' ->
  entries_at fd' t
  = entries_at fd t ++ flat_map (entries_of_pair (timestamp s) t) (items_of s).
Proof.
  unfold process_snapshot. fold (items_of s).
  generalize (items_of s) as items. intros items. revert fd.
  induction items as [|kv items IH]; intros fd; simpl.
  - intros [= ->]. now rewrite app_nil_r.
  - rewrite process_pair_appends. simpl. intros H.
    rewrite (IH _ H), entries_at_append, <- app_assoc. reflexivity.
Qed.

Lemma process_snapshots_entries (snapshots : list snapshot)
    (fd fd' : funding_data) (t : pyval) :
  rfold (process_snapshot py_int py_float mapping) snapshots fd = Ok fd' ->
  entries_at fd' t
  = entries_at fd t ++ entries_of_ticker py_int py_float mapping snapshots t.
Proof.
  revert fd. induction snapshots as [|s rest IH]; intros fd; simpl.
  - intros [= ->]. now rewrite app_nil_r.
  - destruct (process_snapshot py_int py_float mapping fd s) as [fd1|e] eqn:E;
      simpl; [|discriminate].
    intros H. rewrite (IH _ H), (process_snapshot_entries _ _ _ _ E).
    now rewrite <- app_assoc.
Qed.

End EntryOrder.

(** X8: the list that the Rate Processor returns for a ticker holds the
    entries of exactly the pairs that resolve to that ticker, in the order
    of the snapshots and, within a snapshot, of its pairs; a ticker that no
    pair resolves to has no list. *)
Theorem entries_follow_snapshot_order (py_int : string -> option Z)
    (py_float : string -> option F64.float)
    (snapshots : list snapshot) (st : state) :
  exists fd,
    process_funding_rates py_int py_float snapshots st = (Ok fd, st)
    /\ (forall t,
          entries_at fd t
          = entries_of_ticker py_int py_float (PRODUCT_MAPPING st) snapshots t)
    /\ (forall t,
          get pyval_eqb t fd = None
          <-> ~ In t (tickers_met py_int (PRODUCT_MAPPING st) snapshots)).
Proof.
  destruct (process_snapshots_total py_int py_float (PRODUCT_MAPPING st)
              snapshots []) as [fd [Hok _]].
  exists fd. unfold process_funding_rates, bind, read_mapping, lift.
  rewrite Hok. split; [reflexivity|]. split.
  - intros t. now rewrite (process_snapshots_entries _ _ _ _ _ _ t Hok).
  - intros t. rewrite get_none_not_in.
    rewrite (process_snapshots_keys _ _ _ _ _ _ Hok). simpl.
    assert (Hnote : forall l seen x,
              In x (fold_left note_ticker l seen) <-> In x seen \/ In x l).
    { induction l as [|y l IH]; intros seen x; simpl; [tauto|].
      rewrite IH. unfold note_ticker.
      destruct (existsb (pyval_eqb y) seen) eqn:E.
      - apply existsb_exists in E as [z [Hz Ez]].
        apply pyval_eqb_eq in Ez. subst z.
        split; [tauto|]. intros [H|[<-|H]]; auto.
      - rewrite in_app_iff. simpl. tauto. }
    rewrite Hnote. simpl. tauto.
Qed.

(** Two snapshots over three products; product 7 comes first, product 9
    last. *)
Lemma funding_data_keys_first_appearance_holds :
  let s1 := {| timestamp := Some 100%Z;
               funding_rates := Some [("7", "1"); ("2", "2")] |} in
  let s2 := {| timestamp := Some 200%Z;
               funding_rates := Some [("2", "3"); ("9", "4"); ("7", "5")] |} in
  let fd := [(PStr "Unknown(7)", [new_entry (Some 100%Z) (F64.of_Z 1);
                                  new_entry (Some 200%Z) (F64.of_Z 5)]);
             (PStr "Unknown(2)", [new_entry (Some 100%Z) (F64.of_Z 2);
                                  new_entry (Some 200%Z) (F64.of_Z 3)]);
             (PStr "Unknown(9)", [new_entry (Some 200%Z) (F64.of_Z 4)])] in
  process_funding_rates Ref.int Ref.float [s1; s2] empty_state
  = (Ok fd, empty_state)
  /\ keys fd
     = first_appearances (tickers_met Ref.int [] [s1; s2]).
Proof.
  intros s1 s2 fd.
  assert (H : process_funding_rates Ref.int Ref.float [s1; s2] empty_state
              = (Ok fd, empty_state)) by reflexivity.
  split; [exact H|].
  exact (funding_data_keys_first_appearance Ref.int Ref.float [s1; s2]
           empty_state fd H).
Defined.

(** X10: a pair whose key reads as the integer [z] is filed under the
    ticker that the product mapping gives [z], however the key spells the
    integer. *)
Theorem known_product_filed_under_its_ticker (py_int : string -> option Z)
    (py_float : string -> option F64.float)
    (snapshots : list snapshot) (st : state) :
  exists fd,
    process_funding_rates py_int py_float snapshots st = (Ok fd, st)
    /\ (forall s k r z ticker,
          In s snapshots -> In (k, r) (items_of s) ->
          py_int k = Some z ->
          get pyval_eqb (PInt z) (PRODUCT_MAPPING st) = Some ticker ->
          recorded fd ticker
            (new_entry (timestamp s) (raw_value_of py_float r))).
Proof.
  destruct (process_funding_rates_total py_int py_float snapshots st)
    as [fd [Hok [_ [_ Hrec]]]].
  exists fd. split; [exact Hok|].
  intros s k r z ticker Hs Hkr Hz Hget.
  specialize (Hrec s (k, r) Hs Hkr). simpl in Hrec.
  unfold ticker_of, prod_id_of, get_default in Hrec.
  rewrite Hz, Hget in Hrec. exact Hrec.
Qed.

(** Product 2 under its ticker. *)
Lemma known_product_filed_under_its_ticker_holds :
  let s := {| timestamp := Some 100%Z;
              funding_rates := Some [("2", "12")] |} in
  let st := {| PRODUCT_MAPPING := [(PInt 2, PStr "BTC-PERP")];
               stdout := [];
               archive_requests := [];
               vertexrates_txt := None |} in
  In s [s] /\ In ("2", "12") (items_of s) /\ Ref.int "2" = Some 2%Z
  /\ get pyval_eqb (PInt 2) (PRODUCT_MAPPING st) = Some (PStr "BTC-PERP")
  /\ exists fd,
       process_funding_rates Ref.int Ref.float [s] st = (Ok fd, st)
       /\ recorded fd (PStr "BTC-PERP") (new_entry (Some 100%Z) (F64.of_Z 12)).
Proof.
  intros s st.
  assert (Hs : In s [s]) by (left; reflexivity).
  assert (Hkr : In ("2", "12") (items_of s)) by (left; reflexivity).
  assert (Hz : Ref.int "2" = Some 2%Z) by reflexivity.
  assert (Hget : get pyval_eqb (PInt 2) (PRODUCT_MAPPING st)
                 = Some (PStr "BTC-PERP")) by reflexivity.
  split; [exact Hs|]. split; [exact Hkr|]. split; [exact Hz|].
  split; [exact Hget|].
  destruct (known_product_filed_under_its_ticker Ref.int Ref.float [s] st)
    as [fd [Hok Hrec]].
  exists fd. split; [exact Hok|].
  exact (Hrec s "2" "12" 2%Z (PStr "BTC-PERP") Hs Hkr Hz Hget).
Defined.

(* ================================================================== *)
(** ** Aggregator: the rows of the ranking *)

(** X11: the ranking has one row for each ticker of the funding data and
    no other row: its tickers are those of the funding data, each once. *)
Theorem ranking_lists_each_ticker_once (py_sum : list F64.float -> F64.float)
    (fd : funding_data) :
  NoDup (keys fd) ->
  Permutation (keys (sorted_rates py_sum fd)) (keys fd)
  /\ NoDup (keys (sorted_rates py_sum fd))
  /\ List.length (sorted_rates py_sum fd) = List.length fd.
Proof.
  intros Hnd.
  assert (Hp : Permutation (keys (sorted_rates py_sum fd)) (keys fd)).
  { rewrite <- (average_rates_keys py_sum fd Hnd). unfold sorted_rates, keys.
    apply Permutation_map. apply sorted_reverse_perm. }
  split; [exact Hp|]. split.
  - apply (Permutation_NoDup (Permutation_sym Hp)). exact Hnd.
  - apply Permutation_length in Hp. unfold keys in Hp.
    now rewrite !length_map in Hp.
Qed.

(** Three tickers in, three rows out. *)
Lemma ranking_lists_each_ticker_once_holds :
  let one := [ {| e_timestamp := Some 100%Z; funding_rate := F64.of_Z 3 |} ] in
  let two := [ {| e_timestamp := Some 100%Z; funding_rate := F64.of_Z 6 |} ] in
  let fd := [(PStr "A", one); (PStr "B", two); (PStr "C", one)] in
  NoDup (keys fd)
  /\ Permutation (keys (sorted_rates Ref.sum fd)) (keys fd)
  /\ List.length (sorted_rates Ref.sum fd) = 3.
Proof.
  intros one two fd.
  assert (Hnd : NoDup (keys fd)).
  { repeat constructor; simpl; intros H;
      repeat (destruct H as [H|H]; try discriminate H); exact H. }
  split; [exact Hnd|].
  destruct (ranking_lists_each_ticker_once Ref.sum fd Hnd) as [Hp [_ Hl]].
  split; [exact Hp | exact Hl].
Defined.

(* ================================================================== *)
(** ** Whole runs of [main] *)

Lemma print_logged (l : logline) (st : state) : print l st = (Ok tt, logged l st).
Proof. reflexivity. Qed.

Lemma print_rates_lines (rates : list (pyval * F64.float)) (st : state) :
  print_rates rates st
  = (Ok tt, {| PRODUCT_MAPPING := PRODUCT_MAPPING st;
               stdout := stdout st ++ map rate_line rates;
               archive_requests := archive_requests st;
               vertexrates_txt := vertexrates_txt st |}).
Proof.
  revert st. induction rates as [|p t IH]; intros st; simpl.
  - unfold ret. rewrite app_nil_r. now destruct st.
  - rewrite (bind_ok _ _ _ _ _ (print_ok _ _)), IH. simpl.
    now rewrite <- app_assoc.
Qed.

Lemma update_product_mapping_requests (reply : result (list jobject))
    (st : state) :
  archive_requests (snd (update_product_mapping reply st)) = archive_requests st.
Proof.
  unfold update_product_mapping, try_except, bind, lift, read_mapping.
  destruct reply as [symbols|e]; simpl.
  - destruct (dict_comprehension symbols []) as [m|e]; simpl.
    + destruct (set_eqb (keys m) (keys (PRODUCT_MAPPING st))); reflexivity.
    + destruct (is_RequestException e); reflexivity.
  - destruct (is_RequestException e); reflexivity.
Qed.

(** One call of the fetcher posts one request. *)
Lemma get_historical_funding_rates_posts
    (post : payload -> result archive_body) (t : Z) (ids : list pyval)
    (cnt gran : Z) (st : state) :
  answered (post (archive_payload ids cnt gran t)) = true ->
  exists st',
    get_historical_funding_rates post t ids cnt gran st
    = (Ok (snapshots_of (post (archive_payload ids cnt gran t))), st')
    /\ PRODUCT_MAPPING st' = PRODUCT_MAPPING st
    /\ vertexrates_txt st' = vertexrates_txt st
    /\ archive_requests st'
       = archive_requests st ++ [archive_payload ids cnt gran t].
Proof.
  unfold get_historical_funding_rates, try_except, bind, lift, ret, answered,
    snapshots_of, record_request.
  destruct (post (archive_payload ids cnt gran t)) as [data|e]; simpl.
  - intros _. eexists. split; [reflexivity|]. simpl. auto.
  - intros ->. eexists. split; [reflexivity|]. simpl. auto.
Qed.

(** The batch loop posts one request for each batch, in batch order. *)
Lemma fetch_batches_posts (w : world) (batches : list (list pyval))
    (i : nat) (all_snapshots : list snapshot) (st : state) :
  forallb answered (batch_replies w batches i) = true ->
  exists st',
    fetch_batches w batches i all_snapshots st
    = (Ok (all_snapshots ++ flat_map snapshots_of (batch_replies w batches i)),
       st')
    /\ PRODUCT_MAPPING st' = PRODUCT_MAPPING st
    /\ vertexrates_txt st' = vertexrates_txt st
    /\ archive_requests st' = archive_requests st ++ batch_payloads w batches i.
Proof.
  revert i all_snapshots st.
  induction batches as [|batch rest IH]; intros i all_snapshots st; simpl.
  - intros _. exists st. rewrite !app_nil_r. auto.
  - intros H. apply andb_true_iff in H as [Hfirst Hrest].
    rewrite (bind_ok _ _ _ _ _ (print_ok _ _)).
    match goal with
    | |- context [bind (get_historical_funding_rates _ _ _ _ _) _ ?s] =>
        destruct (get_historical_funding_rates_posts
                    (archive w i) (clock w i) batch 72 3600 s Hfirst)
          as [st1 [Hcall [Hmap1 [Hfile1 Hreq1]]]]
    end.
    rewrite (bind_ok _ _ _ _ _ Hcall).
    set (got := snapshots_of
                  (archive w i (archive_payload batch 72 3600 (clock w i)))).
    destruct (IH (S i)
                 (match got with
                  | [] => all_snapshots
                  | _ :: _ => all_snapshots ++ got
                  end) st1 Hrest) as [st' [Hrun [Hmap [Hfile Hreq]]]].
    exists st'. split; [|split; [|split]].
    + rewrite Hrun. f_equal. f_equal. rewrite app_assoc. f_equal.
      destruct got; [now rewrite app_nil_r | reflexivity].
    + rewrite Hmap, Hmap1. reflexivity.
    + rewrite Hfile, Hfile1. reflexivity.
    + rewrite Hreq, Hreq1. simpl. now rewrite <- app_assoc.
Qed.

(** Writing lines while every write goes through. *)
Lemma write_lines_ok (w : world) (lines : list report_line) (k : nat)
    (written : list report_line) (st : state) :
  (forall j, write_line w j = Ok tt) ->
  vertexrates_txt st = Some written ->
  write_lines w k lines st
  = (Ok tt, {| PRODUCT_MAPPING := PRODUCT_MAPPING st;
               stdout := stdout st;
               archive_requests := archive_requests st;
               vertexrates_txt := Some (written ++ lines) |}).
Proof.
  intros Hw. revert k written st.
  induction lines as [|l rest IH]; intros k written st Hst; simpl.
  - unfold ret. rewrite app_nil_r, <- Hst. now destruct st.
  - unfold bind at 1. unfold bind at 1. unfold lift. rewrite Hw.
    unfold append_line, write_file. rewrite Hst.
    erewrite IH by reflexivity. simpl. now rewrite <- app_assoc.
Qed.


Section Runs.

Variable py_int : string -> option Z.
Variable py_float : string -> option F64.float.
Variable py_sum : list F64.float -> F64.float.

(** What is left of [main] once the mapping is loaded and the batches are
    planned. *)
Let after_fetch (w : world) (all_snapshots : list snapshot) : M unit :=
  match all_snapshots with
  | [] => print LogNoSnapshots
  | first :: _ =>
      print (LogDebugFirst first) ;;;
      fd <- process_funding_rates py_int py_float all_snapshots ;;
      write_report w (sorted_rates py_sum fd) ;;;
      print_rates (sorted_rates py_sum fd)
  end.

Lemma main_after_planning (w : world) (st st1 : state)
    (batches : list (list pyval)) :
  update_product_mapping (assets w) st = (Ok tt, st1) ->
  chunk_list (keys (PRODUCT_MAPPING st1)) 27 = Ok batches ->
  main py_int py_float py_sum w st
  = bind (fetch_batches w batches 0 []) (after_fetch w)
         (logged (LogMaxBatch 27)
            (logged (LogUsingIds (keys (PRODUCT_MAPPING st1))) st1)).
Proof.
  intros Hupd Hchunks. unfold main.
  rewrite (bind_ok _ _ _ _ _ Hupd).
  rewrite (bind_ok read_mapping _ st1 (PRODUCT_MAPPING st1) st1 eq_refl).
  cbv zeta.
  rewrite (bind_ok _ _ _ _ _ (print_logged _ _)).
  rewrite (bind_ok _ _ _ _ _ (print_logged _ _)).
  change (Nat.div 2000 72) with 27.
  match goal with
  | |- bind (lift _) _ ?s = _ =>
      rewrite (bind_ok (lift _) _ s batches s);
      [reflexivity | unfold lift; now rewrite Hchunks]
  end.
Qed.

Lemma main_after_fetch (w : world) (st st1 : state)
    (batches : list (list pyval)) :
  update_product_mapping (assets w) st = (Ok tt, st1) ->
  chunk_list (keys (PRODUCT_MAPPING st1)) 27 = Ok batches ->
  forallb answered (batch_replies w batches 0) = true ->
  exists st2,
    main py_int py_float py_sum w st
    = after_fetch w (flat_map snapshots_of (batch_replies w batches 0)) st2
    /\ PRODUCT_MAPPING st2 = PRODUCT_MAPPING st1
    /\ vertexrates_txt st2 = vertexrates_txt st
    /\ archive_requests st2 = archive_requests st ++ batch_payloads w batches 0.
Proof.
  intros Hupd Hchunks Hall.
  rewrite (main_after_planning w st st1 batches Hupd Hchunks).
  match goal with
  | |- context [bind _ _ ?s] =>
      destruct (fetch_batches_posts w batches 0 [] s Hall)
        as [st2 [Hrun [Hmap [Hfile Hreq]]]]
  end.
  exists st2. rewrite (bind_ok _ _ _ _ _ Hrun). simpl app.
  split; [reflexivity|]. split; [exact Hmap|].
  split.
  - rewrite Hfile. simpl.
    pose proof (update_product_mapping_file (assets w) st) as H.
    rewrite Hupd in H. exact H.
  - rewrite Hreq. simpl.
    pose proof (update_product_mapping_requests (assets w) st) as H.
    rewrite Hupd in H. simpl in H. now rewrite H.
Qed.

(** X12: in a run whose loader returns, whose archive answers every request
    and gives at least one snapshot, in which no average is NaN and the
    report file can be opened, written and closed, [main] returns after
    posting one request for each batch and handing to the report file the
    header, the separator and one row for each ticker, the rows being the
    averages in descending order with the tickers of equal rate in the
    order of the funding data; the last lines on the console are the same
    rows in the same order, and there are as many rows as distinct tickers
    met in the snapshots. *)
Theorem main_writes_the_ranking (w : world) (st st1 : state)
    (batches : list (list pyval)) (first : snapshot) (rest : list snapshot)
    (fd : funding_data) :
  update_product_mapping (assets w) st = (Ok tt, st1) ->
  chunk_list (keys (PRODUCT_MAPPING st1)) 27 = Ok batches ->
  forallb answered (batch_replies w batches 0) = true ->
  flat_map snapshots_of (batch_replies w batches 0) = first :: rest ->
  process_funding_rates py_int py_float (first :: rest) st1 = (Ok fd, st1) ->
  Forall (fun p => F64.is_nan (snd p) = false) (average_rates py_sum fd) ->
  open_report w = Ok tt ->
  (forall k, write_line w k = Ok tt) ->
  close_report w = Ok tt ->
  exists rows st',
    main py_int py_float py_sum w st = (Ok tt, st')
    /\ vertexrates_txt st' = Some (Header :: Separator :: map row_of rows)
    /\ (exists out, stdout st' = out ++ map rate_line rows)
    /\ archive_requests st' = archive_requests st ++ batch_payloads w batches 0
    /\ PRODUCT_MAPPING st' = PRODUCT_MAPPING st1
    /\ Permutation rows (average_rates py_sum fd)
    /\ StronglySorted (fun a b => F64.leb (snd b) (snd a) = true) rows
    /\ (forall x, filter (same_rate x) rows
                  = filter (same_rate x) (average_rates py_sum fd))
    /\ List.length rows
       = List.length
           (first_appearances
              (tickers_met py_int (PRODUCT_MAPPING st1) (first :: rest))).
Proof.
  intros Hupd Hchunks Hall Hsnaps Hfd Hnum Hopen Hwrite Hclose.
  destruct (main_after_fetch w st st1 batches Hupd Hchunks Hall)
    as [st2 [Hmain [Hmap [_ Hreq]]]].
  assert (Hok : rfold (process_snapshot py_int py_float (PRODUCT_MAPPING st1))
                      (first :: rest) [] = Ok fd).
  { unfold process_funding_rates, bind, read_mapping, lift in Hfd.
    now injection Hfd. }
  assert (Hproc : forall s, PRODUCT_MAPPING s = PRODUCT_MAPPING st1 ->
            process_funding_rates py_int py_float (first :: rest) s
            = (Ok fd, s)).
  { intros s Hs. unfold process_funding_rates, bind, read_mapping, lift.
    now rewrite Hs, Hok. }
  assert (Hnd : NoDup (keys fd)).
  { destruct (process_snapshots_total py_int py_float (PRODUCT_MAPPING st1)
                (first :: rest) []) as [fd' [Hok' [_ [Hnd _]]]].
    rewrite Hok in Hok'. injection Hok' as <-. apply Hnd. constructor. }
  exists (sorted_rates py_sum fd). eexists.
  rewrite Hmain, Hsnaps. unfold after_fetch.
  rewrite (bind_ok _ _ _ _ _ (print_logged _ _)).
  rewrite (bind_ok _ _ _ _ _ (Hproc (logged (LogDebugFirst first) st2) Hmap)).
  unfold write_report at 1.
  unfold bind at 1. unfold bind at 1. unfold bind at 1. unfold lift at 1.
  rewrite Hopen. unfold write_file at 1. unfold with_close.
  erewrite write_lines_ok by (try exact Hwrite; reflexivity).
  unfold lift. rewrite Hclose. rewrite print_rates_lines. simpl.
  split; [reflexivity|]. simpl.
  split; [reflexivity|]. split; [eexists; reflexivity|].
  split; [exact Hreq|]. split; [exact Hmap|].
  unfold sorted_rates.
  split; [apply sorted_reverse_perm|].
  split; [now apply sorted_reverse_sorted|].
  split; [intros x; apply sorted_reverse_stable|].
  rewrite (Permutation_length (sorted_reverse_perm snd _)).
  rewrite (average_rates_map py_sum fd Hnd), length_map.
  rewrite <- (length_map fst fd). fold (keys fd).
  now rewrite (process_snapshots_keys _ _ _ _ _ _ Hok).
Qed.

(** X13: in such a run, when opening the report file fails, [main] raises
    the error of the open call; the report file is what it was before the
    run and the last line on the console is the debug print of the first
    snapshot: no rate is printed. *)
Theorem main_fails_when_report_cannot_be_opened (w : world) (st st1 : state)
    (batches : list (list pyval)) (first : snapshot) (rest : list snapshot)
    (e : exn) :
  update_product_mapping (assets w) st = (Ok tt, st1) ->
  chunk_list (keys (PRODUCT_MAPPING st1)) 27 = Ok batches ->
  forallb answered (batch_replies w batches 0) = true ->
  flat_map snapshots_of (batch_replies w batches 0) = first :: rest ->
  open_report w = Raise e ->
  exists st',
    main py_int py_float py_sum w st = (Raise e, st')
    /\ vertexrates_txt st' = vertexrates_txt st
    /\ (exists out, stdout st' = out ++ [LogDebugFirst first]).
Proof.
  intros Hupd Hchunks Hall Hsnaps Hopen.
  destruct (main_after_fetch w st st1 batches Hupd Hchunks Hall)
    as [st2 [Hmain [Hmap [Hfile _]]]].
  destruct (process_snapshots_total py_int py_float (PRODUCT_MAPPING st1)
              (first :: rest) []) as [fd [Hok _]].
  assert (Hproc : forall s, PRODUCT_MAPPING s = PRODUCT_MAPPING st1 ->
            process_funding_rates py_int py_float (first :: rest) s
            = (Ok fd, s)).
  { intros s Hs. unfold process_funding_rates, bind, read_mapping, lift.
    now rewrite Hs, Hok. }
  eexists. rewrite Hmain, Hsnaps. unfold after_fetch.
  rewrite (bind_ok _ _ _ _ _ (print_logged _ _)).
  rewrite (bind_ok _ _ _ _ _ (Hproc (logged (LogDebugFirst first) st2) Hmap)).
  unfold write_report. rewrite Hopen. unfold bind, lift.
  split; [reflexivity|]. simpl. split; [exact Hfile|].
  eexists. reflexivity.
Qed.

(** X14: when a record of the decoded assets response lacks product_id or
    ticker_id, the whole run stops there: [main] raises the [KeyError] of
    the loader and the state is what it was: nothing printed, no request
    posted to the archive, no file written. *)
Theorem main_stops_on_malformed_assets (w : world) (symbols : list jobject)
    (st : state) :
  assets w = Ok symbols ->
  (exists item, In item symbols
     /\ (get String.eqb "product_id" item = None
         \/ get String.eqb "ticker_id" item = None)) ->
  exists field, (field = "product_id" \/ field = "ticker_id")
    /\ main py_int py_float py_sum w st = (Raise (KeyError field), st)
    /\ archive_requests (snd (main py_int py_float py_sum w st))
       = archive_requests st
    /\ stdout (snd (main py_int py_float py_sum w st)) = stdout st
    /\ vertexrates_txt (snd (main py_int py_float py_sum w st))
       = vertexrates_txt st.
Proof.
  intros Hassets Hbad.
  destruct (dict_comprehension_missing symbols [] Hbad) as [f [Hf E]].
  exists f. split; [exact Hf|].
  assert (Hmain : main py_int py_float py_sum w st = (Raise (KeyError f), st)).
  { unfold main, bind at 1. rewrite Hassets.
    unfold update_product_mapping, try_except, bind, lift. rewrite E.
    reflexivity. }
  rewrite Hmain. auto.
Qed.

(** X15: when the assets request fails and no mapping is stored, as at the
    start of the program, [main] posts no request to the archive: it prints
    the error, the empty list of product ids, the batch size 27 and that no
    snapshots were retrieved, and returns without touching the report
    file. *)
Theorem main_without_mapping_fetches_nothing (w : world) (msg : string)
    (st : state) :
  assets w = Raise (RequestException msg) ->
  PRODUCT_MAPPING st = [] ->
  main py_int py_float py_sum w st
  = (Ok tt,
     {| PRODUCT_MAPPING := [];
        stdout := stdout st ++ [LogAssetsError (RequestException msg);
                                LogUsingIds [];
                                LogMaxBatch 27;
                                LogNoSnapshots];
        archive_requests := archive_requests st;
        vertexrates_txt := vertexrates_txt st |}).
Proof.
  intros Hassets Hempty.
  assert (Hupd : update_product_mapping (assets w) st
                 = (Ok tt, logged (LogAssetsError (RequestException msg)) st)).
  { rewrite Hassets. reflexivity. }
  rewrite (main_after_planning w st _ [] Hupd).
  - simpl PRODUCT_MAPPING. rewrite Hempty. unfold bind, logged. simpl.
    rewrite Hempty. unfold print. simpl.
    repeat rewrite <- app_assoc. reflexivity.
  - simpl PRODUCT_MAPPING. rewrite Hempty. reflexivity.
Qed.


End Runs.

(** A run over two products and one hourly snapshot: BTC-PERP, averaging
    2.0, ranks before ETH-PERP, averaging 1.0. *)
Lemma main_writes_the_ranking_holds :
  let s := {| timestamp := Some 3600%Z;
              funding_rates := Some [("4", "720000000000000000");
                                     ("2", "1440000000000000000")] |} in
  let w := {| assets := Ok [[("product_id", PInt 2);
                             ("ticker_id", PStr "BTC-PERP")];
                            [("product_id", PInt 4);
                             ("ticker_id", PStr "ETH-PERP")]];
              archive := fun _ _ => Ok {| snapshots_field := Some [s] |};
              clock := fun _ => 3661%Z;
              open_report := Ok tt;
              write_line := fun _ => Ok tt;
              close_report := Ok tt |} in
  let st1 := {| PRODUCT_MAPPING := [(PInt 2, PStr "BTC-PERP");
                                    (PInt 4, PStr "ETH-PERP")];
                stdout := [LogMappingUpdated];
                archive_requests := [];
                vertexrates_txt := None |} in
  let fd := [(PStr "ETH-PERP", [new_entry (Some 3600%Z)
                                  (F64.of_Z 720000000000000000)]);
             (PStr "BTC-PERP", [new_entry (Some 3600%Z)
                                  (F64.of_Z 1440000000000000000)])] in
  update_product_mapping (assets w) empty_state = (Ok tt, st1)
  /\ chunk_list (keys (PRODUCT_MAPPING st1)) 27 = Ok [[PInt 2; PInt 4]]
  /\ forallb answered (batch_replies w [[PInt 2; PInt 4]] 0) = true
  /\ flat_map snapshots_of (batch_replies w [[PInt 2; PInt 4]] 0) = [s]
  /\ process_funding_rates Ref.int Ref.float [s] st1 = (Ok fd, st1)
  /\ Forall (fun p => F64.is_nan (snd p) = false) (average_rates Ref.sum fd)
  /\ open_report w = Ok tt
  /\ (forall k, write_line w k = Ok tt)
  /\ close_report w = Ok tt
  /\ exists rows st',
       main Ref.int Ref.float Ref.sum w empty_state = (Ok tt, st')
       /\ vertexrates_txt st' = Some (Header :: Separator :: map row_of rows)
       /\ archive_requests st'
          = [archive_payload [PInt 2; PInt 4] 72 3600 3661]
       /\ Permutation rows (average_rates Ref.sum fd)
       /\ StronglySorted (fun a b => F64.leb (snd b) (snd a) = true) rows.
Proof.
  intros s w st1 fd.
  assert (Hupd : update_product_mapping (assets w) empty_state = (Ok tt, st1))
    by reflexivity.
  assert (Hchunks : chunk_list (keys (PRODUCT_MAPPING st1)) 27
                    = Ok [[PInt 2; PInt 4]]) by reflexivity.
  assert (Hall : forallb answered (batch_replies w [[PInt 2; PInt 4]] 0)
                 = true) by reflexivity.
  assert (Hsnaps : flat_map snapshots_of (batch_replies w [[PInt 2; PInt 4]] 0)
                   = [s]) by reflexivity.
  assert (Hfd : process_funding_rates Ref.int Ref.float [s] st1 = (Ok fd, st1))
    by reflexivity.
  assert (Hnum : Forall (fun p => F64.is_nan (snd p) = false)
                        (average_rates Ref.sum fd))
    by (repeat constructor).
  assert (Hopen : open_report w = Ok tt) by reflexivity.
  assert (Hwrite : forall k, write_line w k = Ok tt) by (intros k; reflexivity).
  assert (Hclose : close_report w = Ok tt) by reflexivity.
  split; [exact Hupd|]. split; [exact Hchunks|]. split; [exact Hall|].
  split; [exact Hsnaps|]. split; [exact Hfd|]. split; [exact Hnum|].
  split; [exact Hopen|]. split; [exact Hwrite|]. split; [exact Hclose|].
  destruct (main_writes_the_ranking Ref.int Ref.float Ref.sum w empty_state
              st1 [[PInt 2; PInt 4]] s [] fd
              Hupd Hchunks Hall Hsnaps Hfd Hnum Hopen Hwrite Hclose)
    as [rows [st' [Hmain [Hfile [_ [Hreq [_ [Hperm [Hsorted _]]]]]]]]].
  exists rows, st'. split; [exact Hmain|]. split; [exact Hfile|].
  split; [exact Hreq|]. split; [exact Hperm | exact Hsorted].
Defined.

(** The same run on a disk that refuses the report. *)
Lemma main_fails_when_report_cannot_be_opened_holds :
  let s := {| timestamp := Some 3600%Z;
              funding_rates := Some [("2", "1440000000000000000")] |} in
  let w := {| assets := Ok [[("product_id", PInt 2);
                             ("ticker_id", PStr "BTC-PERP")]];
              archive := fun _ _ => Ok {| snapshots_field := Some [s] |};
              clock := fun _ => 3661%Z;
              open_report := Raise OSError;
              write_line := fun _ => Ok tt;
              close_report := Ok tt |} in
  let st1 := {| PRODUCT_MAPPING := [(PInt 2, PStr "BTC-PERP")];
                stdout := [LogMappingUpdated];
                archive_requests := [];
                vertexrates_txt := None |} in
  update_product_mapping (assets w) empty_state = (Ok tt, st1)
  /\ chunk_list (keys (PRODUCT_MAPPING st1)) 27 = Ok [[PInt 2]]
  /\ forallb answered (batch_replies w [[PInt 2]] 0) = true
  /\ flat_map snapshots_of (batch_replies w [[PInt 2]] 0) = [s]
  /\ open_report w = Raise OSError
  /\ exists st',
       main Ref.int Ref.float Ref.sum w empty_state = (Raise OSError, st')
       /\ vertexrates_txt st' = None
       /\ (exists out, stdout st' = out ++ [LogDebugFirst s]).
Proof.
  intros s w st1.
  assert (Hupd : update_product_mapping (assets w) empty_state = (Ok tt, st1))
    by reflexivity.
  assert (Hchunks : chunk_list (keys (PRODUCT_MAPPING st1)) 27
                    = Ok [[PInt 2]]) by reflexivity.
  assert (Hall : forallb answered (batch_replies w [[PInt 2]] 0) = true)
    by reflexivity.
  assert (Hsnaps : flat_map snapshots_of (batch_replies w [[PInt 2]] 0) = [s])
    by reflexivity.
  assert (Hopen : open_report w = Raise OSError) by reflexivity.
  split; [exact Hupd|]. split; [exact Hchunks|]. split; [exact Hall|].
  split; [exact Hsnaps|]. split; [exact Hopen|].
  exact (main_fails_when_report_cannot_be_opened Ref.int Ref.float Ref.sum w
           empty_state st1 [[PInt 2]] s [] OSError
           Hupd Hchunks Hall Hsnaps Hopen).
Defined.

(** A response whose only record has no ticker_id. *)
Lemma main_stops_on_malformed_assets_holds :
  let symbols := [[("product_id", PInt 4)]] in
  let w := {| assets := Ok symbols;
              archive := fun _ _ => Ok {| snapshots_field := None |};
              clock := fun _ => 3661%Z;
              open_report := Ok tt;
              write_line := fun _ => Ok tt;
              close_report := Ok tt |} in
  assets w = Ok symbols
  /\ (exists item, In item symbols
        /\ (get String.eqb "product_id" item = None
            \/ get String.eqb "ticker_id" item = None))
  /\ exists field, (field = "product_id" \/ field = "ticker_id")
       /\ main Ref.int Ref.float Ref.sum w empty_state
          = (Raise (KeyError field), empty_state)
       /\ archive_requests (snd (main Ref.int Ref.float Ref.sum w empty_state))
          = [].
Proof.
  intros symbols w.
  assert (Hassets : assets w = Ok symbols) by reflexivity.
  assert (Hbad : exists item, In item symbols
            /\ (get String.eqb "product_id" item = None
                \/ get String.eqb "ticker_id" item = None)).
  { exists [("product_id", PInt 4)]. split; [left; reflexivity|].
    right. reflexivity. }
  split; [exact Hassets|]. split; [exact Hbad|].
  destruct (main_stops_on_malformed_assets Ref.int Ref.float Ref.sum w symbols
              empty_state Hassets Hbad) as [f [Hf [Hmain [Hreq _]]]].
  exists f. split; [exact Hf|]. split; [exact Hmain | exact Hreq].
Defined.

(** The assets endpoint is down at the start of the program. *)
Lemma main_without_mapping_fetches_nothing_holds :
  let w := {| assets := Raise (RequestException "timeout");
              archive := fun _ _ => Ok {| snapshots_field := None |};
              clock := fun _ => 3661%Z;
              open_report := Ok tt;
              write_line := fun _ => Ok tt;
              close_report := Ok tt |} in
  assets w = Raise (RequestException "timeout")
  /\ PRODUCT_MAPPING empty_state = []
  /\ main Ref.int Ref.float Ref.sum w empty_state
     = (Ok tt,
        {| PRODUCT_MAPPING := [];
           stdout := [LogAssetsError (RequestException "timeout");
                      LogUsingIds [];
                      LogMaxBatch 27;
                      LogNoSnapshots];
           archive_requests := [];
           vertexrates_txt := None |}).
Proof.
  intros w.
  assert (Hassets : assets w = Raise (RequestException "timeout"))
    by reflexivity.
  assert (Hempty : PRODUCT_MAPPING empty_state = []) by reflexivity.
  split; [exact Hassets|]. split; [exact Hempty|].
  exact (main_without_mapping_fetches_nothing Ref.int Ref.float Ref.sum w
           "timeout" empty_state Hassets Hempty).
Defined.



(* ================================================================== *)
(** ** The ranking is determined by the averages *)

(** X16: when no average is NaN, the ranking is the only arrangement of the
    averages that is descending and keeps the tickers of equal rate in their
    order: any such arrangement is the ranking. *)
Theorem ranking_is_determined (py_sum : list F64.float -> F64.float)
    (fd : funding_data) (rows : list (pyval * F64.float)) :
  Forall (fun p => F64.is_nan (snd p) = false) (average_rates py_sum fd) ->
  Permutation rows (average_rates py_sum fd) ->
  StronglySorted (fun a b => F64.leb (snd b) (snd a) = true) rows ->
  (forall x, filter (same_rate x) rows
             = filter (same_rate x) (average_rates py_sum fd)) ->
  rows = sorted_rates py_sum fd.
Proof.
  intros Hnum Hperm Hsorted Hstable. unfold sorted_rates.
  now apply sorted_reverse_unique.
Qed.

(** Averages that are already in descending order: the ranking is the list
    itself. *)
Lemma ranking_is_determined_holds :
  let two := [ {| e_timestamp := Some 100%Z; funding_rate := F64.of_Z 6 |} ] in
  let one := [ {| e_timestamp := Some 100%Z; funding_rate := F64.of_Z 3 |} ] in
  let fd := [(PStr "A", two); (PStr "B", one)] in
  let rows := [(PStr "A", F64.of_Z 2); (PStr "B", F64.of_Z 1)] in
  Forall (fun p => F64.is_nan (snd p) = false) (average_rates Ref.sum fd)
  /\ Permutation rows (average_rates Ref.sum fd)
  /\ StronglySorted (fun a b => F64.leb (snd b) (snd a) = true) rows
  /\ (forall x, filter (same_rate x) rows
                = filter (same_rate x) (average_rates Ref.sum fd))
  /\ rows = sorted_rates Ref.sum fd.
Proof.
  intros two one fd rows.
  assert (Hnum : Forall (fun p => F64.is_nan (snd p) = false)
                        (average_rates Ref.sum fd))
    by (repeat constructor).
  assert (Hperm : Permutation rows (average_rates Ref.sum fd))
    by apply Permutation_refl.
  assert (Hsorted : StronglySorted
                      (fun a b => F64.leb (snd b) (snd a) = true) rows)
    by (repeat constructor).
  assert (Hstable : forall x, filter (same_rate x) rows
                              = filter (same_rate x) (average_rates Ref.sum fd))
    by (intros x; reflexivity).
  split; [exact Hnum|]. split; [exact Hperm|]. split; [exact Hsorted|].
  split; [exact Hstable|].
  exact (ranking_is_determined Ref.sum fd rows Hnum Hperm Hsorted Hstable).
Defined.
